(** * python-gitlab-plus: the merge-request watcher and its classifiers

    A shallow embedding of [src/python_gitlab_plus/gitlab_plus.py]:
    the [GitLabStatus] enumeration, the constructor of [GitLabClient]
    with [is_connected], the classifiers [has_merge_conflicts],
    [is_mr_merged], [is_mr_open], and the polling loop
    [wait_until_mr_finished].

    The GitLab server, the process environment, the clock and the logger
    are outside the program.  They are modelled as a [Collaborator] (what
    the outside answers to the k-th call of each verb) and a [World] (what
    the program has done to the outside so far); every method is a function
    in the state-and-exception monad [M] over [World]. *)

From Stdlib Require Import ZArith String List Bool Lia.
From stdpp Require Import base strings gmap list pretty.

Local Open Scope string_scope.
Local Open Scope Z_scope.

(** ** Python values *)

(** [class GitLabStatus(Enum)].  A plain [Enum]: it does not mix in [str]. *)
Inductive GitLabStatus := OPEN | CLOSE | MERGE | LOCKE.

Definition status_value (s : GitLabStatus) : string :=
  match s with
  | OPEN => "Opened"
  | CLOSE => "Closed"
  | MERGE => "Merged"
  | LOCKE => "Locked"
  end.

Definition status_name (s : GitLabStatus) : string :=
  match s with
  | OPEN => "OPEN"
  | CLOSE => "CLOSE"
  | MERGE => "MERGE"
  | LOCKE => "LOCKE"
  end.

Definition status_eqb (a b : GitLabStatus) : bool :=
  match a, b with
  | OPEN, OPEN | CLOSE, CLOSE | MERGE, MERGE | LOCKE, LOCKE => true
  | _, _ => false
  end.

(** The values an attribute of a merge request, a merge-request number or
    a timeout can hold: the scalars of a decoded JSON document, and the
    members of [GitLabStatus]. *)
Inductive pyval :=
  | PNone
  | PBool (b : bool)
  | PInt (z : Z)
  | PStr (s : string)
  | PEnum (st : GitLabStatus).

(** Python's [==].  [bool] is a subclass of [int], so [True == 1]; an
    [Enum] member is equal to itself only: its [__eq__] is the identity
    of [object], and [str.__eq__] answers [NotImplemented] to anything
    that is not a [str]. *)
Definition py_eq (a b : pyval) : bool :=
  match a, b with
  | PNone, PNone => true
  | PBool x, PBool y => Bool.eqb x y
  | PBool x, PInt y | PInt y, PBool x => Z.eqb (Z.b2z x) y
  | PInt x, PInt y => Z.eqb x y
  | PStr x, PStr y => String.eqb x y
  | PEnum x, PEnum y => status_eqb x y
  | _, _ => false
  end.

(** Python's truth value: [bool(v)]. *)
Definition truthy (v : pyval) : bool :=
  match v with
  | PNone => false
  | PBool b => b
  | PInt z => negb (Z.eqb z 0)
  | PStr s => negb (String.eqb s "")
  | PEnum _ => true
  end.

(** [x in l] for a list [l]: some element is [x] or equals it. *)
Definition py_in (x : pyval) (l : list pyval) : bool := existsb (py_eq x) l.

(** [str(v)], as an f-string renders a value. *)
Definition py_str (v : pyval) : string :=
  match v with
  | PNone => "None"
  | PBool true => "True"
  | PBool false => "False"
  | PInt z => pretty z
  | PStr s => s
  | PEnum st => "GitLabStatus." ++ status_name st
  end.

(** [Optional[int]] and [Optional[str]] arguments as Python values. *)
Definition of_opt_int (t : option Z) : pyval :=
  match t with Some z => PInt z | None => PNone end.

Definition of_opt_str (t : option string) : pyval :=
  match t with Some s => PStr s | None => PNone end.

(** ** Exceptions *)

Inductive ExcClass :=
  | KeyboardInterrupt
  | SystemExit
  | ExceptionC
  | ValueError
  | TimeoutError
  | AttributeError
  | ConnectionErrorC
  | GitlabError.

(** [issubclass(c, Exception)]: what [except Exception] catches. *)
Definition is_Exception (c : ExcClass) : bool :=
  match c with
  | KeyboardInterrupt | SystemExit => false
  | _ => true
  end.

Record exn := mkExn { exc_class : ExcClass; exc_msg : string }.

(** ** Results *)

(** What a call comes to: a value, a raised exception, or (for the
    polling loop only) no answer within the cycles granted. *)
Inductive Res (A : Type) :=
  | Ok (a : A)
  | Raise (e : exn)
  | OutOfFuel.
Arguments Ok {A} a.
Arguments Raise {A} e.
Arguments OutOfFuel {A}.

(** What the outside answers to one call. *)
Inductive Reply (A : Type) :=
  | Returns (a : A)
  | Throws (e : exn).
Arguments Returns {A} a.
Arguments Throws {A} e.

(** ** The outside world *)

(** A merge request as python-gitlab hands it over: an object whose
    attributes are the fields of the server's JSON answer. *)
Abbreviation MR := (gmap string pyval).

Definition hasattr (mr : MR) (a : string) : bool :=
  bool_decide (is_Some (mr !! a)).

Inductive Level := DEBUG | INFO | ERROR.

(** The clock is read in whole ticks of a fixed unit, the unit of
    [check_interval] and [timeout]; it moves when a fetch takes its
    [latency] and when the program sleeps, and [time.sleep(d)] takes
    exactly [d]. *)
Record World := mkWorld {
  now : Z;                          (* the reading of [time.time()] *)
  auth_calls : nat;                 (* calls of [gitlab.auth()] so far *)
  project_gets : nat;               (* calls of [projects.get] so far *)
  mr_gets : nat;                    (* calls of [mergerequests.get] so far *)
  sleeps : list Z;                  (* [time.sleep] durations, latest first *)
  log : list (Level * string)       (* logger records, latest first *)
}.

Record Collaborator := mkCollaborator {
  (* [os.environ] *)
  environ : gmap string string;
  (* [gitlab.Gitlab(url, private_token).auth()], k-th call *)
  auth_reply : string -> option string -> nat -> Reply unit;
  (* [gitlab.projects.get(project_id)], k-th call *)
  project_reply : string -> nat -> Reply string;
  (* [project.mergerequests.get(mr_number)], k-th call *)
  mr_reply : string -> pyval -> nat -> Reply MR;
  (* how long the k-th [mergerequests.get] takes *)
  latency : nat -> Z
}.

(** ** The monad *)

Definition M (A : Type) : Type := World -> Res A * World.

Definition ret {A} (a : A) : M A := fun w => (Ok a, w).

Definition raise {A} (c : ExcClass) (msg : string) : M A :=
  fun w => (Raise (mkExn c msg), w).

Definition out_of_fuel {A} : M A := fun w => (OutOfFuel, w).

Definition bind {A B} (m : M A) (k : A -> M B) : M B :=
  fun w =>
    match m w with
    | (Ok a, w') => k a w'
    | (Raise e, w') => (Raise e, w')
    | (OutOfFuel, w') => (OutOfFuel, w')
    end.

Notation "x <~ m ;> k" := (bind m (fun x => k))
  (at level 20, m at level 99, k at level 200, only parsing).
Notation "m ;> k" := (bind m (fun _ => k))
  (at level 100, k at level 200, right associativity, only parsing).

(** [try: m  except Exception as e: h e]. *)
Definition try_except {A} (m : M A) (h : exn -> M A) : M A :=
  fun w =>
    match m w with
    | (Raise e, w') => if is_Exception (exc_class e) then h e w' else (Raise e, w')
    | r => r
    end.

Definition of_reply {A} (r : Reply A) : Res A :=
  match r with
  | Returns a => Ok a
  | Throws e => Raise e
  end.

Definition logger (lv : Level) (msg : string) : M unit :=
  fun w => (Ok tt, mkWorld (now w) (auth_calls w) (project_gets w) (mr_gets w)
                           (sleeps w) ((lv, msg) :: log w)).

Definition time_time : M Z := fun w => (Ok (now w), w).

(** [time.sleep(d)]: a negative duration is a [ValueError]. *)
Definition time_sleep (d : Z) : M unit :=
  fun w =>
    if d <? 0 then (Raise (mkExn ValueError "sleep length must be non-negative"), w)
    else (Ok tt, mkWorld (now w + d) (auth_calls w) (project_gets w) (mr_gets w)
                         (d :: sleeps w) (log w)).

(** [mr.a]: python-gitlab raises [AttributeError] for a field the server
    did not send. *)
Definition getattr (mr : MR) (a : string) : M pyval :=
  match mr !! a with
  | Some v => ret v
  | None => raise AttributeError a
  end.

(** ** The collaborator's verbs *)

Record Gitlab := mkGitlab { url : string; private_token : option string }.

Record GitLabClient := mkClient {
  gitlab_url : string;
  gitlab_access_token : option string;
  gitlab : Gitlab;
  project : string
}.

Section Client.

Variable C : Collaborator.

(** [gitlab.auth()] *)
Definition gitlab_auth (g : Gitlab) : M unit :=
  fun w =>
    (of_reply (auth_reply C (url g) (private_token g) (auth_calls w)),
     mkWorld (now w) (S (auth_calls w)) (project_gets w) (mr_gets w)
             (sleeps w) (log w)).

(** [gitlab.projects.get(project_id)] *)
Definition projects_get (g : Gitlab) (project_id : string) : M string :=
  fun w =>
    (of_reply (project_reply C project_id (project_gets w)),
     mkWorld (now w) (auth_calls w) (S (project_gets w)) (mr_gets w)
             (sleeps w) (log w)).

(** [project.mergerequests.get(mr_number)]: one round trip to the
    server, which takes its time. *)
Definition mergerequests_get (proj : string) (mr_number : pyval) : M MR :=
  fun w =>
    (of_reply (mr_reply C proj mr_number (mr_gets w)),
     mkWorld (now w + latency C (mr_gets w)) (auth_calls w) (project_gets w)
             (S (mr_gets w)) (sleeps w) (log w)).

(** ** [GitLabClient] *)

(** [a or b] on two optional strings. *)
Definition py_or (a b : option string) : option string :=
  if truthy (of_opt_str a) then a else b.

Definition is_connected (gitlab_url : string) (g : Gitlab)
    (raise_if_not_connected : bool) : M bool :=
  try_except
    (gitlab_auth g ;>
     logger INFO ("Successfully connected to GitLab at " ++ gitlab_url) ;>
     ret true)
    (fun e =>
       let msg := "Failed to authenticate with GitLab: " ++ exc_msg e in
       if raise_if_not_connected then raise ValueError msg
       else logger ERROR msg ;> ret false).

Definition init (gitlab_url : string) (gitlab_access_token : option string)
    (project_id : string) : M GitLabClient :=
  let token := py_or gitlab_access_token (environ C !! "GITLAB_ACCESS_TOKEN") in
  let g := mkGitlab gitlab_url token in
  is_connected gitlab_url g true ;>
  p <~ projects_get g project_id ;>
  ret (mkClient gitlab_url token g p).

Variable self : GitLabClient.

Definition get_mr_status (mr_number : pyval) : M pyval :=
  mr <~ mergerequests_get (project self) mr_number ;>
  getattr mr "state".

Definition conflict_statuses : list pyval :=
  [PStr "conflicts"; PStr "cannot_be_merged"].

Definition has_merge_conflicts (mr_number : pyval) : M bool :=
  mr <~ mergerequests_get (project self) mr_number ;>
  flagged <~ (if hasattr mr "has_conflicts"
              then v <~ getattr mr "has_conflicts" ;> ret (truthy v)
              else ret false) ;>
  if flagged then
    v <~ getattr mr "has_conflicts" ;>
    logger ERROR ("🔍 MR !" ++ py_str mr_number ++ " has_conflicts = " ++ py_str v) ;>
    ret true
  else
    listed <~ (if hasattr mr "detailed_merge_status"
               then v <~ getattr mr "detailed_merge_status" ;>
                    ret (py_in v conflict_statuses)
               else ret false) ;>
    if listed then
      v <~ getattr mr "detailed_merge_status" ;>
      logger ERROR ("🔍 MR !" ++ py_str mr_number
                    ++ " detailed_merge_status = " ++ py_str v) ;>
      ret true
    else ret false.

Definition is_mr_merged (mr_number : pyval) : M bool :=
  mr <~ mergerequests_get (project self) mr_number ;>
  st <~ getattr mr "state" ;>
  if py_eq st (PEnum MERGE) then
    logger INFO ("✅ MR !" ++ py_str mr_number ++ " has been merged") ;>
    ret true
  else
    logger ERROR ("❌ MR !" ++ py_str mr_number ++ " was close without merging.") ;>
    ret false.

Definition is_mr_open (mr_number : pyval) : M bool :=
  mr <~ mergerequests_get (project self) mr_number ;>
  st <~ getattr mr "state" ;>
  if py_eq st (PEnum OPEN) then
    logger INFO ("✅ MR !" ++ py_str mr_number ++ " has been open.") ;>
    ret true
  else
    logger ERROR ("❌ MR !" ++ py_str mr_number ++ " was closed.") ;>
    ret false.

Definition close_statuses : list pyval :=
  [PEnum CLOSE; PEnum MERGE; PEnum LOCKE].

(** [timeout and (time.time() - start_time) > timeout]: the clock is read
    only when [timeout] is truthy. *)
Definition timeout_reached (timeout : option Z) (start_time : Z) : M bool :=
  match timeout with
  | Some t =>
      if truthy (PInt t)
      then (t1 <~ time_time ;> ret (t1 - start_time >? t))
      else ret false
  | None => ret false
  end.

(** The body of [while True], [fuel] cycles of it. *)
Fixpoint wait_loop (fuel : nat) (mr_number : pyval) (check_interval : Z)
    (timeout : option Z) (start_time : Z) : M unit :=
  match fuel with
  | O => out_of_fuel
  | S fuel' =>
      late <~ timeout_reached timeout start_time ;>
      if late then
        raise TimeoutError
          ("⏰ Timeout reached while waiting for MR !" ++ py_str mr_number
           ++ " to be merged.")
      else
        mr <~ mergerequests_get (project self) mr_number ;>
        iid <~ getattr mr "iid" ;>
        st <~ getattr mr "state" ;>
        logger DEBUG ("MR (" ++ py_str iid ++ ") status is: " ++ py_str st) ;>
        conflict <~ has_merge_conflicts mr_number ;>
        if conflict then
          raise ExceptionC ("🔍 MR !" ++ py_str mr_number ++ " has conflicts.")
        else if py_in st close_statuses then ret tt
        else
          time_sleep check_interval ;>
          wait_loop fuel' mr_number check_interval timeout start_time
  end.

Definition wait_until_mr_finished (fuel : nat) (mr_number : pyval)
    (check_interval : Z) (timeout : option Z) : M unit :=
  logger INFO ("⏳ Waiting for MR !" ++ py_str mr_number ++ " to be merged...") ;>
  start_time <~ time_time ;>
  wait_loop fuel mr_number check_interval timeout start_time.

End Client.

(** ** Derived notions used in the statements *)

(** The verdict of [has_merge_conflicts] on the merge request it fetched. *)
Definition conflicted (mr : MR) : bool :=
  match mr !! "has_conflicts" with
  | Some v => truthy v
  | None => false
  end
  || match mr !! "detailed_merge_status" with
     | Some v => py_in v conflict_statuses
     | None => false
     end.

(** The guard of the [TimeoutError] branch at a given elapsed time. *)
Definition timeout_due (timeout : option Z) (elapsed : Z) : bool :=
  match timeout with
  | Some t => truthy (PInt t) && (elapsed >? t)
  | None => false
  end.

(** The clock at the start of poll cycle [j], when the cycles before it
    all went on to sleep: each of them made two fetches (the loop's own
    and the one inside [has_merge_conflicts]) and slept [check_interval]. *)
Fixpoint clock_after (C : Collaborator) (g : nat) (t check_interval : Z)
    (j : nat) : Z :=
  match j with
  | O => t
  | S j' =>
      clock_after C (S (S g))
        (t + latency C g + latency C (S g) + check_interval) check_interval j'
  end.

(** A poll cycle whose fetches start at call [g] and which finds nothing:
    both fetches answer, the loop's merge request has [iid] and [state],
    the state is not among [close_statuses], and the second merge request
    shows no conflict. *)
Definition quiet_cycle (C : Collaborator) (proj : string) (mr_number : pyval)
    (g : nat) : Prop :=
  exists mr mr' iid st,
    mr_reply C proj mr_number g = Returns mr /\
    mr !! "iid" = Some iid /\
    mr !! "state" = Some st /\
    py_in st close_statuses = false /\
    mr_reply C proj mr_number (S g) = Returns mr' /\
    conflicted mr' = false.

(** ** Fixtures: a server that always shows the same merge request *)

Definition snapshot (iid : Z) (state : pyval) (has_conflicts : option pyval)
    (detailed_merge_status : option pyval) : MR :=
  let m0 : MR := <["iid" := PInt iid]> (<["state" := state]> ∅) in
  let m1 : MR :=
    match has_conflicts with
    | Some v => <["has_conflicts" := v]> m0
    | None => m0
    end in
  match detailed_merge_status with
  | Some v => <["detailed_merge_status" := v]> m1
  | None => m1
  end.

Definition serving (mr : MR) : Collaborator :=
  mkCollaborator ∅ (fun _ _ _ => Returns tt) (fun p _ => Returns p)
    (fun _ _ _ => Returns mr) (fun _ => 0).

(** A server that shows [mr] for the first [n] fetches and fails after. *)
Definition serving_first (n : nat) (mr : MR) : Collaborator :=
  mkCollaborator ∅ (fun _ _ _ => Returns tt) (fun p _ => Returns p)
    (fun _ _ k => if (k <? n)%nat then Returns mr
                  else Throws (mkExn GitlabError "404 Not Found"))
    (fun _ => 0).

(** A server that refuses every authentication. *)
Definition refusing (env : gmap string string) : Collaborator :=
  mkCollaborator env
    (fun _ _ _ => Throws (mkExn GitlabError "401 Unauthorized"))
    (fun p _ => Returns p) (fun _ _ _ => Returns ∅) (fun _ => 0).

(** A server that accepts every authentication, in a given environment. *)
Definition accepting (env : gmap string string) : Collaborator :=
  mkCollaborator env (fun _ _ _ => Returns tt) (fun p _ => Returns p)
    (fun _ _ _ => Returns ∅) (fun _ => 0).

Definition fresh : World := mkWorld 0 0 0 0 [] [].

(** Merge request 7 as the server shows it: open and mergeable; open
    with the conflict flag up; and open with only the detailed status
    telling of a conflict. *)
Definition opened : MR :=
  snapshot 7 (PStr "opened") (Some (PBool false)) (Some (PStr "mergeable")).

Definition conflicting : MR :=
  snapshot 7 (PStr "opened") (Some (PBool true)) (Some (PStr "mergeable")).

Definition unmergeable : MR :=
  snapshot 7 (PStr "opened") None (Some (PStr "cannot_be_merged")).

Definition a_client : GitLabClient :=
  mkClient "https://gitlab.example" (Some "tok")
           (mkGitlab "https://gitlab.example" (Some "tok")) "group/repo".

(** ** The verbs that write, and the file reader *)

(** What the program asks of the server besides authentication and
    reads of projects and merge requests. *)
Inductive Request :=
  | BranchCreate (proj : string) (data : MR)
  | TagCreate (proj : string) (data : MR)
  | MergeRequestCreate (proj : string) (data : MR)
  | FileGet (proj : string) (file_path : string) (ref : string).

(** A server that also creates and serves files.  Its answer to a request
    may depend on the requests it served before (latest first).  A created
    object comes back as an object with attributes, like a merge request;
    [file_reply] is what [files.get(...).decode()] comes to, the decoding
    being python-gitlab's. *)
Record Forge := mkForge {
  core : Collaborator;
  create_reply : list Request -> Request -> Reply MR;
  file_reply : list Request -> Request -> Reply string
}.

Record Site := mkSite {
  world : World;
  requests : list Request           (* requests served, latest first *)
}.

Definition M2 (A : Type) : Type := Site -> Res A * Site.

Definition ret2 {A} (a : A) : M2 A := fun s => (Ok a, s).

Definition bind2 {A B} (m : M2 A) (k : A -> M2 B) : M2 B :=
  fun s =>
    match m s with
    | (Ok a, s') => k a s'
    | (Raise e, s') => (Raise e, s')
    | (OutOfFuel, s') => (OutOfFuel, s')
    end.

(** A computation on the [World] alone, run at a [Site]. *)
Definition lift {A} (m : M A) : M2 A :=
  fun s => (fst (m (world s)), mkSite (snd (m (world s))) (requests s)).

Notation "x <~ m ;>> k" := (bind2 m (fun x => k))
  (at level 20, m at level 99, k at level 200, only parsing).
Notation "m ;>> k" := (bind2 m (fun _ => k))
  (at level 100, k at level 200, right associativity, only parsing).

Section Writer.

Variables (F : Forge) (self : GitLabClient).

(** [project.branches.create], [project.tags.create] and
    [project.mergerequests.create]. *)
Definition server_create (r : Request) : M2 MR :=
  fun s =>
    (of_reply (create_reply F (requests s) r),
     mkSite (world s) (r :: requests s)).

(** [project.files.get(file_path, ref=branch).decode()] *)
Definition server_file (proj file_path ref : string) : M2 string :=
  fun s =>
    (of_reply (file_reply F (requests s) (FileGet proj file_path ref)),
     mkSite (world s) (FileGet proj file_path ref :: requests s)).

Definition fetch_file_content (project_path branch file_path : string)
    : M2 string :=
  lift (logger INFO ("Fetching file from project: " ++ project_path
                     ++ ", branch: " ++ branch ++ ", path: " ++ file_path)) ;>>
  proj <~ lift (projects_get (core F) (gitlab self) project_path) ;>>
  server_file proj file_path branch.

Definition create_new_branch (branch_name from_branch : string) : M2 MR :=
  branch <~ server_create
              (BranchCreate (project self)
                 (<["branch" := PStr branch_name]>
                    (<["ref" := PStr from_branch]> ∅))) ;>>
  lift (logger INFO ("✅ Branch '" ++ branch_name ++ "' created from '"
                     ++ from_branch ++ "'")) ;>>
  ret2 branch.

Definition create_tag (tag_name from_branch : string)
    (message : option string) : M2 MR :=
  tag <~ server_create
           (TagCreate (project self)
              (<["tag_name" := PStr tag_name]>
                 (<["ref" := PStr from_branch]>
                    (<["message" := of_opt_str message]> ∅)))) ;>>
  lift (logger INFO ("✅ Tag '" ++ tag_name ++ "' created from '"
                     ++ from_branch ++ "'")) ;>>
  ret2 tag.

Definition create_new_mr (title from_branch target : string) : M2 MR :=
  mr <~ server_create
          (MergeRequestCreate (project self)
             (<["source_branch" := PStr from_branch]>
                (<["target_branch" := PStr target]>
                   (<["title" := PStr title]> ∅)))) ;>>
  iid <~ lift (getattr mr "iid") ;>>
  lift (logger INFO ("✅ Merge Request '" ++ title ++ "' created: !"
                     ++ py_str iid)) ;>>
  ret2 mr.

End Writer.

(** ** More derived notions *)

(** What a stretch of the program did to the counters: no authentication,
    no project lookup, [fetches] reads of merge requests and the sleeps
    [slept] (latest first). *)
Definition footprint (w w' : World) (fetches : nat) (slept : list Z) : Prop :=
  auth_calls w' = auth_calls w /\
  project_gets w' = project_gets w /\
  mr_gets w' = (mr_gets w + fetches)%nat /\
  sleeps w' = (slept ++ sleeps w)%list.

(** The watch started at [w] polls on through its first [k] cycles: each
    of them is on time and finds nothing, and the sleep between them is
    one that [time.sleep] accepts. *)
Definition polls_on (C : Collaborator) (proj : string) (mr_number : pyval)
    (check_interval : Z) (timeout : option Z) (w : World) (k : nat) : Prop :=
  ((0 < k)%nat -> 0 <= check_interval) /\
  forall j, (j < k)%nat ->
    quiet_cycle C proj mr_number (mr_gets w + 2 * j) /\
    timeout_due timeout
      (clock_after C (mr_gets w) (now w) check_interval j - now w) = false.

(** ** More fixtures *)

(** A server whose even-numbered fetches show [a] and odd-numbered ones
    [b]: [a] is what the loop sees, [b] what [has_merge_conflicts] sees. *)
Definition alternating (a b : MR) : Collaborator :=
  mkCollaborator ∅ (fun _ _ _ => Returns tt) (fun p _ => Returns p)
    (fun _ _ k => if Nat.even k then Returns a else Returns b) (fun _ => 0).

(** A server that accepts authentication and knows no project. *)
Definition projectless : Collaborator :=
  mkCollaborator ∅ (fun _ _ _ => Returns tt)
    (fun _ _ => Throws (mkExn GitlabError "404 Project Not Found"))
    (fun _ _ _ => Returns ∅) (fun _ => 0).

(** A server interrupted during authentication. *)
Definition interrupted : Collaborator :=
  mkCollaborator ∅ (fun _ _ _ => Throws (mkExn KeyboardInterrupt ""))
    (fun p _ => Returns p) (fun _ _ _ => Returns ∅) (fun _ => 0).

(** A server that shows [a] for the first [n] fetches and [b] after. *)
Definition turning (n : nat) (a b : MR) : Collaborator :=
  mkCollaborator ∅ (fun _ _ _ => Returns tt) (fun p _ => Returns p)
    (fun _ _ k => if (k <? n)%nat then Returns a else Returns b) (fun _ => 0).

(** Merge request 7 closed, its state a member of [GitLabStatus]; and two
    answers that lack fields. *)
Definition closed_member : MR :=
  snapshot 7 (PEnum CLOSE) (Some (PBool false)) None.

Definition no_iid : MR := <["state" := PStr "opened"]> ∅.

Definition no_state : MR := <["iid" := PInt 7]> ∅.

(** Merge request 7 with a conflict flag that is not a boolean. *)
Definition flagged_one : MR := snapshot 7 (PStr "opened") (Some (PInt 1)) None.

(** A forge that refuses a name it has created before and numbers what it
    creates; its files all read ["content"]. *)
#[global] Instance GitLabStatus_eq_dec : EqDecision GitLabStatus.
Proof. solve_decision. Defined.

#[global] Instance pyval_eq_dec : EqDecision pyval.
Proof. solve_decision. Defined.

#[global] Instance Request_eq_dec : EqDecision Request.
Proof. solve_decision. Defined.

Definition a_forge : Forge :=
  mkForge (accepting ∅)
    (fun served r =>
       if bool_decide (r ∈ served)
       then Throws (mkExn GitlabError "400 already exists")
       else Returns (<["iid" := PInt (Z.of_nat (S (length served)))]> ∅))
    (fun _ _ => Returns "content").

(** A forge whose created objects come back without attributes. *)
Definition a_terse_forge : Forge :=
  mkForge (accepting ∅) (fun _ _ => Returns ∅) (fun _ _ => Returns "content").

(** A forge over a server that knows no project. *)
Definition a_projectless_forge : Forge :=
  mkForge projectless (fun _ _ => Returns ∅) (fun _ _ => Returns "content").

Definition a_site : Site := mkSite fresh [].

(** * Properties *)

(** ** The monad's equations *)

Lemma bind_ok {A B} (m : M A) (k : A -> M B) w a w' :
  m w = (Ok a, w') -> bind m k w = k a w'.
Proof. intros H. unfold bind. now rewrite H. Qed.

Lemma bind_raise {A B} (m : M A) (k : A -> M B) w e w' :
  m w = (Raise e, w') -> bind m k w = (Raise e, w').
Proof. intros H. unfold bind. now rewrite H. Qed.

Lemma getattr_some (mr : MR) a v w :
  mr !! a = Some v -> getattr mr a w = (Ok v, w).
Proof. intros H. unfold getattr. now rewrite H. Qed.

Lemma hasattr_some (mr : MR) a v : mr !! a = Some v -> hasattr mr a = true.
Proof. intros H. unfold hasattr. now rewrite H. Qed.

Lemma hasattr_none (mr : MR) a : mr !! a = None -> hasattr mr a = false.
Proof. intros H. unfold hasattr. now rewrite H. Qed.

(** ** Python equality against strings and members *)

Lemma py_eq_str_enum s st : py_eq (PStr s) (PEnum st) = false.
Proof. reflexivity. Qed.

Lemma py_in_str_close_statuses s : py_in (PStr s) close_statuses = false.
Proof. reflexivity. Qed.

Lemma status_eqb_eq a b : status_eqb a b = true <-> a = b.
Proof. destruct a, b; simpl; split; intros H; try reflexivity; discriminate. Qed.

Lemma py_eq_enum v st : py_eq v (PEnum st) = true <-> v = PEnum st.
Proof.
  destruct v; simpl; split; intros H; try discriminate.
  - apply status_eqb_eq in H. now subst.
  - injection H as ->. now apply status_eqb_eq.
Qed.

Lemma py_eq_to_str v s : py_eq v (PStr s) = true <-> v = PStr s.
Proof.
  destruct v; simpl; split; intros H; try discriminate.
  - apply String.eqb_eq in H. now subst.
  - injection H as ->. apply String.eqb_refl.
Qed.

Lemma py_in_conflict_statuses v :
  py_in v conflict_statuses = true <->
  v = PStr "conflicts" \/ v = PStr "cannot_be_merged".
Proof.
  unfold py_in, conflict_statuses. simpl. rewrite orb_false_r, orb_true_iff.
  now rewrite !py_eq_to_str.
Qed.

(** ** The classifiers *)

Section Classifiers.

Variables (C : Collaborator) (self : GitLabClient) (mr_number : pyval).

(** [has_merge_conflicts] makes one fetch, never sleeps, and answers
    [conflicted] of what it fetched. *)
Lemma has_merge_conflicts_run w (mr : MR) :
  mr_reply C (project self) mr_number (mr_gets w) = Returns mr ->
  exists w',
    has_merge_conflicts C self mr_number w = (Ok (conflicted mr), w') /\
    now w' = now w + latency C (mr_gets w) /\
    mr_gets w' = S (mr_gets w) /\
    sleeps w' = sleeps w.
Proof.
  intros Hget.
  unfold has_merge_conflicts, conflicted, bind, mergerequests_get, hasattr, getattr.
  rewrite Hget. cbn -[py_in truthy].
  destruct (mr !! "has_conflicts") as [v|]; cbn -[py_in truthy].
  - destruct (truthy v); cbn -[py_in truthy].
    + eexists; repeat split; reflexivity.
    + destruct (mr !! "detailed_merge_status") as [d|]; cbn -[py_in truthy].
      * destruct (py_in d conflict_statuses); cbn;
          eexists; repeat split; reflexivity.
      * eexists; repeat split; reflexivity.
  - destruct (mr !! "detailed_merge_status") as [d|]; cbn -[py_in truthy].
    + destruct (py_in d conflict_statuses); cbn;
        eexists; repeat split; reflexivity.
    + eexists; repeat split; reflexivity.
Qed.

Lemma has_merge_conflicts_throws w e :
  mr_reply C (project self) mr_number (mr_gets w) = Throws e ->
  fst (has_merge_conflicts C self mr_number w) = Raise e.
Proof.
  intros Hget. unfold has_merge_conflicts, bind, mergerequests_get.
  now rewrite Hget.
Qed.

(** [is_mr_merged] answers Python's [mr.state == GitLabStatus.MERGE]. *)
Lemma is_mr_merged_run w (mr : MR) st :
  mr_reply C (project self) mr_number (mr_gets w) = Returns mr ->
  mr !! "state" = Some st ->
  fst (is_mr_merged C self mr_number w) = Ok (py_eq st (PEnum MERGE)).
Proof.
  intros Hget Hst. unfold is_mr_merged, bind, mergerequests_get, getattr.
  rewrite Hget. simpl. rewrite Hst. simpl.
  now destruct (py_eq st (PEnum MERGE)).
Qed.

Lemma is_mr_open_run w (mr : MR) st :
  mr_reply C (project self) mr_number (mr_gets w) = Returns mr ->
  mr !! "state" = Some st ->
  fst (is_mr_open C self mr_number w) = Ok (py_eq st (PEnum OPEN)).
Proof.
  intros Hget Hst. unfold is_mr_open, bind, mergerequests_get, getattr.
  rewrite Hget. simpl. rewrite Hst. simpl.
  now destruct (py_eq st (PEnum OPEN)).
Qed.

(** Had the server sent members of [GitLabStatus], the two classifiers
    would tell them apart as intended. *)
Lemma is_mr_merged_on_member w (mr : MR) s :
  mr_reply C (project self) mr_number (mr_gets w) = Returns mr ->
  mr !! "state" = Some (PEnum s) ->
  fst (is_mr_merged C self mr_number w) = Ok (status_eqb s MERGE).
Proof. intros Hget Hst. now rewrite (is_mr_merged_run w mr _ Hget Hst). Qed.

Lemma is_mr_open_on_member w (mr : MR) s :
  mr_reply C (project self) mr_number (mr_gets w) = Returns mr ->
  mr !! "state" = Some (PEnum s) ->
  fst (is_mr_open C self mr_number w) = Ok (status_eqb s OPEN).
Proof. intros Hget Hst. now rewrite (is_mr_open_run w mr _ Hget Hst). Qed.

(** C6: a merge request whose [has_conflicts] is present and [True]
    makes [has_merge_conflicts] return [True], whatever
    [detailed_merge_status] is and whether or not it is there. *)
Theorem has_merge_conflicts_flag_true w (mr : MR) :
  mr_reply C (project self) mr_number (mr_gets w) = Returns mr ->
  mr !! "has_conflicts" = Some (PBool true) ->
  fst (has_merge_conflicts C self mr_number w) = Ok true.
Proof.
  intros Hget Hflag.
  destruct (has_merge_conflicts_run w mr Hget) as (w' & Hrun & _).
  rewrite Hrun. simpl. unfold conflicted. now rewrite Hflag.
Qed.

(** C7: when [has_conflicts] is absent or [False], [has_merge_conflicts]
    returns [True] if [detailed_merge_status] is present and is
    ["conflicts"] or ["cannot_be_merged"], and [False] if it is absent or
    anything else. *)
Theorem has_merge_conflicts_fallback w (mr : MR) :
  mr_reply C (project self) mr_number (mr_gets w) = Returns mr ->
  mr !! "has_conflicts" = None \/ mr !! "has_conflicts" = Some (PBool false) ->
  (mr !! "detailed_merge_status" = Some (PStr "conflicts") \/
   mr !! "detailed_merge_status" = Some (PStr "cannot_be_merged") ->
   fst (has_merge_conflicts C self mr_number w) = Ok true) /\
  (mr !! "detailed_merge_status" = None \/
   (exists v, mr !! "detailed_merge_status" = Some v /\
              v <> PStr "conflicts" /\ v <> PStr "cannot_be_merged") ->
   fst (has_merge_conflicts C self mr_number w) = Ok false).
Proof.
  intros Hget Hflag.
  destruct (has_merge_conflicts_run w mr Hget) as (w' & Hrun & _).
  rewrite Hrun. simpl.
  assert (Hc : conflicted mr =
               match mr !! "detailed_merge_status" with
               | Some v => py_in v conflict_statuses
               | None => false
               end).
  { unfold conflicted. now destruct Hflag as [-> | ->]. }
  rewrite Hc. split.
  - intros [-> | ->]; reflexivity.
  - intros [-> | (v & -> & Hn1 & Hn2)]; [reflexivity|].
    f_equal. apply not_true_is_false. intros Hin.
    apply py_in_conflict_statuses in Hin. tauto.
Qed.

End Classifiers.

Lemma snapshot_state i st hc d : snapshot i st hc d !! "state" = Some st.
Proof. destruct hc, d; reflexivity. Qed.

Lemma snapshot_iid i st hc d : snapshot i st hc d !! "iid" = Some (PInt i).
Proof. destruct hc, d; reflexivity. Qed.

(** C4: at a merge request whose state is a string, as the server sends
    it and as [get_mr_status] declares it, [is_mr_merged] returns [False]:
    also for ["merged"] and for ["Merged"], the value of
    [GitLabStatus.MERGE]. *)
Theorem is_mr_merged_string_state (s : string) (i : Z) hc d w :
  fst (is_mr_merged (serving (snapshot i (PStr s) hc d)) a_client (PInt i) w)
  = Ok false.
Proof.
  erewrite is_mr_merged_run; [| reflexivity | apply snapshot_state].
  reflexivity.
Qed.

(** C5: at a merge request whose state is a string, [is_mr_open] returns
    [False]: also for ["opened"] and for ["Opened"], the value of
    [GitLabStatus.OPEN]. *)
Theorem is_mr_open_string_state (s : string) (i : Z) hc d w :
  fst (is_mr_open (serving (snapshot i (PStr s) hc d)) a_client (PInt i) w)
  = Ok false.
Proof.
  erewrite is_mr_open_run; [| reflexivity | apply snapshot_state].
  reflexivity.
Qed.

(** ** The constructor *)

Section Constructor.

Variables (C : Collaborator) (address : string) (given : option string)
  (project_id : string).

(** With [raise_if_not_connected] left at [False], a failed check is
    logged and answered [False]; the constructor passes [True]. *)
Lemma is_connected_quietly g w e :
  auth_reply C (url g) (private_token g) (auth_calls w) = Throws e ->
  is_Exception (exc_class e) = true ->
  fst (is_connected C address g false w) = Ok false.
Proof.
  intros Hauth Hexc. unfold is_connected, try_except, bind, gitlab_auth.
  rewrite Hauth. simpl. now rewrite Hexc.
Qed.

(** C8: when the authentication check fails, the constructor raises:
    it never returns a client; [gitlab.auth()] has been called once and
    [projects.get] not at all; and what it raises for a failure that
    [except Exception] catches is the [ValueError] carrying the cause. *)
Theorem init_auth_failure w e :
  auth_reply C address
    (py_or given (environ C !! "GITLAB_ACCESS_TOKEN")) (auth_calls w) = Throws e ->
  let r := init C address given project_id w in
  (exists e', fst r = Raise e') /\
  (is_Exception (exc_class e) = true ->
   fst r = Raise (mkExn ValueError
                    ("Failed to authenticate with GitLab: " ++ exc_msg e))) /\
  auth_calls (snd r) = S (auth_calls w) /\
  project_gets (snd r) = project_gets w.
Proof.
  intros Hauth. unfold init, is_connected, try_except, bind, gitlab_auth.
  simpl. rewrite Hauth. simpl.
  destruct (is_Exception (exc_class e)); simpl.
  - repeat split; eauto.
  - repeat split; eauto. discriminate.
Qed.

(** C10: the client keeps the token it was given when that token is a
    non-empty string, and the value of [GITLAB_ACCESS_TOKEN] in the
    environment (if any) when it was given [None] or the empty string. *)
Theorem init_token w p :
  auth_reply C address
    (py_or given (environ C !! "GITLAB_ACCESS_TOKEN")) (auth_calls w) = Returns tt ->
  project_reply C project_id (project_gets w) = Returns p ->
  exists c,
    fst (init C address given project_id w) = Ok c /\
    (forall s, given = Some s -> s <> "" ->
               gitlab_access_token c = Some s) /\
    (given = None \/ given = Some "" ->
     gitlab_access_token c = environ C !! "GITLAB_ACCESS_TOKEN") /\
    private_token (gitlab c) = gitlab_access_token c.
Proof.
  intros Hauth Hproj.
  unfold init, is_connected, try_except, bind, gitlab_auth, projects_get.
  simpl. rewrite Hauth. simpl. rewrite Hproj. simpl.
  eexists. split; [reflexivity|]. simpl. unfold py_or.
  repeat split.
  - intros s -> Hs. simpl. apply String.eqb_neq in Hs. now rewrite Hs.
  - intros [-> | ->]; reflexivity.
Qed.

End Constructor.

(** ** The polling loop *)

Section Watcher.

Variables (C : Collaborator) (self : GitLabClient) (mr_number : pyval)
  (check_interval : Z) (timeout : option Z) (start_time : Z).

Lemma timeout_reached_run w :
  timeout_reached timeout start_time w
  = (Ok (timeout_due timeout (now w - start_time)), w).
Proof.
  unfold timeout_reached, timeout_due. destruct timeout as [t|]; [|reflexivity].
  now destruct (truthy (PInt t)).
Qed.

Lemma mergerequests_get_returns w (mr : MR) :
  mr_reply C (project self) mr_number (mr_gets w) = Returns mr ->
  mergerequests_get C (project self) mr_number w
  = (Ok mr, mkWorld (now w + latency C (mr_gets w)) (auth_calls w)
                    (project_gets w) (S (mr_gets w)) (sleeps w) (log w)).
Proof. intros H. unfold mergerequests_get. now rewrite H. Qed.

(** One poll cycle, up to the answer of [has_merge_conflicts]: the loop
    goes on as its tail does on that answer. *)
Lemma wait_loop_cycle w (mr mr' : MR) iid st :
  timeout_due timeout (now w - start_time) = false ->
  mr_reply C (project self) mr_number (mr_gets w) = Returns mr ->
  mr !! "iid" = Some iid ->
  mr !! "state" = Some st ->
  mr_reply C (project self) mr_number (S (mr_gets w)) = Returns mr' ->
  exists w1,
    now w1 = now w + latency C (mr_gets w) + latency C (S (mr_gets w)) /\
    mr_gets w1 = S (S (mr_gets w)) /\
    sleeps w1 = sleeps w /\
    forall fuel,
      wait_loop C self (S fuel) mr_number check_interval timeout start_time w
      = (if conflicted mr' then
           raise ExceptionC ("🔍 MR !" ++ py_str mr_number ++ " has conflicts.")
         else if py_in st close_statuses then ret tt
         else
           time_sleep check_interval ;>
           wait_loop C self fuel mr_number check_interval timeout start_time) w1.
Proof.
  intros Hdue Hget Hiid Hst Hget'.
  pose (w0 := mkWorld (now w + latency C (mr_gets w)) (auth_calls w)
                (project_gets w) (S (mr_gets w)) (sleeps w)
                ((DEBUG, "MR (" ++ py_str iid ++ ") status is: " ++ py_str st)
                 :: log w)).
  destruct (has_merge_conflicts_run C self mr_number w0 mr' Hget')
    as (w1 & Hrun & Hnow & Hgets & Hsleeps).
  exists w1. repeat split; try assumption.
  intros fuel. cbn [wait_loop].
  rewrite (bind_ok _ _ _ _ _ (timeout_reached_run w)), Hdue.
  rewrite (bind_ok _ _ _ _ _ (mergerequests_get_returns w mr Hget)).
  rewrite (bind_ok _ _ _ _ _ (getattr_some mr "iid" iid _ Hiid)).
  rewrite (bind_ok _ _ _ _ _ (getattr_some mr "state" st _ Hst)).
  match goal with
  | |- context [bind (logger ?l ?m) ?k ?w'] =>
      change (bind (logger l m) k w') with (k tt w0)
  end.
  cbv beta. now rewrite (bind_ok _ _ _ _ _ Hrun).
Qed.

(** A quiet cycle ends in [time.sleep(check_interval)] and hands over to
    the next one. *)
Lemma wait_loop_quiet_step w :
  0 <= check_interval ->
  timeout_due timeout (now w - start_time) = false ->
  quiet_cycle C (project self) mr_number (mr_gets w) ->
  exists w',
    now w' = now w + latency C (mr_gets w) + latency C (S (mr_gets w))
             + check_interval /\
    mr_gets w' = S (S (mr_gets w)) /\
    sleeps w' = check_interval :: sleeps w /\
    forall fuel,
      wait_loop C self (S fuel) mr_number check_interval timeout start_time w
      = wait_loop C self fuel mr_number check_interval timeout start_time w'.
Proof.
  intros Hci Hdue (mr & mr' & iid & st & Hget & Hiid & Hst & Hopen & Hget' & Hquiet).
  destruct (wait_loop_cycle w mr mr' iid st Hdue Hget Hiid Hst Hget')
    as (w1 & Hnow & Hgets & Hsleeps & Hloop).
  exists (mkWorld (now w1 + check_interval) (auth_calls w1) (project_gets w1)
                  (mr_gets w1) (check_interval :: sleeps w1) (log w1)).
  cbn [now mr_gets sleeps]. rewrite Hnow, Hgets, Hsleeps.
  repeat split; try reflexivity.
  intros fuel. rewrite Hloop, Hquiet, Hopen.
  unfold bind, time_sleep.
  destruct (Z.ltb_spec check_interval 0) as [Hneg|_]; [lia|].
  now rewrite Hnow, Hgets, Hsleeps.
Qed.

(** [k] quiet cycles in a row, none of them late, use up [k] units of
    fuel, [2 * k] fetches and [k] sleeps. *)
Lemma wait_loop_quiet_prefix k : forall w,
  ((0 < k)%nat -> 0 <= check_interval) ->
  (forall j, (j < k)%nat ->
     quiet_cycle C (project self) mr_number (mr_gets w + 2 * j) /\
     timeout_due timeout
       (clock_after C (mr_gets w) (now w) check_interval j - start_time)
     = false) ->
  exists w',
    now w' = clock_after C (mr_gets w) (now w) check_interval k /\
    mr_gets w' = (mr_gets w + 2 * k)%nat /\
    sleeps w' = (repeat check_interval k ++ sleeps w)%list /\
    forall fuel,
      wait_loop C self (k + fuel) mr_number check_interval timeout start_time w
      = wait_loop C self fuel mr_number check_interval timeout start_time w'.
Proof.
  induction k as [|k IH]; intros w Hci Hquiet.
  - exists w. cbn. repeat split; try reflexivity. lia.
  - destruct (Hquiet O ltac:(lia)) as [Hq0 Hd0].
    rewrite Nat.mul_0_r, Nat.add_0_r in Hq0. cbn [clock_after] in Hd0.
    destruct (wait_loop_quiet_step w (Hci ltac:(lia)) Hd0 Hq0)
      as (w1 & Hnow1 & Hgets1 & Hsleeps1 & Hstep).
    destruct (IH w1) as (w' & Hnow & Hgets & Hsleeps & Hrest).
    { intros _. apply Hci. lia. }
    { intros j Hj. destruct (Hquiet (S j) ltac:(lia)) as [Hq Hd].
      rewrite Hgets1, Hnow1. split.
      - now replace (S (S (mr_gets w)) + 2 * j)%nat
          with (mr_gets w + 2 * S j)%nat by lia.
      - exact Hd. }
    exists w'. rewrite Hnow, Hgets, Hsleeps, Hgets1, Hnow1, Hsleeps1.
    repeat split.
    + lia.
    + cbn [repeat]. now rewrite repeat_cons, <- app_assoc.
    + intros fuel. cbn [Nat.add]. now rewrite Hstep, Hrest.
Qed.

Lemma wait_until_mr_finished_unfold fuel w :
  wait_until_mr_finished C self fuel mr_number check_interval timeout w
  = wait_loop C self fuel mr_number check_interval timeout (now w)
      (mkWorld (now w) (auth_calls w) (project_gets w) (mr_gets w) (sleeps w)
         ((INFO, "⏳ Waiting for MR !" ++ py_str mr_number ++ " to be merged...")
          :: log w)).
Proof. reflexivity. Qed.

(** With a timeout that is [None] or [0] the guard of the [TimeoutError]
    branch is false at every elapsed time. *)
Lemma timeout_due_falsy elapsed :
  timeout = None \/ timeout = Some 0 -> timeout_due timeout elapsed = false.
Proof. now intros [-> | ->]. Qed.

(** When the guard is false throughout, a [TimeoutError] can only be one
    that the server's answers carried. *)
Lemma wait_loop_timeout_error_origin fuel : forall w e,
  (forall elapsed, timeout_due timeout elapsed = false) ->
  (forall g e', mr_reply C (project self) mr_number g = Throws e' ->
                exc_class e' <> TimeoutError) ->
  fst (wait_loop C self fuel mr_number check_interval timeout start_time w)
  = Raise e ->
  exc_class e <> TimeoutError.
Proof.
  induction fuel as [|fuel IH]; intros w e Hdue Hsrv Hres; [discriminate|].
  destruct (mr_reply C (project self) mr_number (mr_gets w)) as [mr|e0] eqn:Hget.
  2:{ cbn [wait_loop] in Hres.
      rewrite (bind_ok _ _ _ _ _ (timeout_reached_run w)), Hdue in Hres.
      unfold bind at 1, mergerequests_get in Hres. rewrite Hget in Hres.
      injection Hres as <-. eauto. }
  destruct (mr !! "iid") as [iid|] eqn:Hiid.
  2:{ cbn [wait_loop] in Hres.
      rewrite (bind_ok _ _ _ _ _ (timeout_reached_run w)), Hdue in Hres.
      rewrite (bind_ok _ _ _ _ _ (mergerequests_get_returns w mr Hget)) in Hres.
      unfold bind at 1, getattr in Hres. rewrite Hiid in Hres.
      injection Hres as <-. discriminate. }
  destruct (mr !! "state") as [st|] eqn:Hst.
  2:{ cbn [wait_loop] in Hres.
      rewrite (bind_ok _ _ _ _ _ (timeout_reached_run w)), Hdue in Hres.
      rewrite (bind_ok _ _ _ _ _ (mergerequests_get_returns w mr Hget)) in Hres.
      rewrite (bind_ok _ _ _ _ _ (getattr_some mr "iid" iid _ Hiid)) in Hres.
      unfold bind at 1, getattr in Hres. rewrite Hst in Hres.
      injection Hres as <-. discriminate. }
  destruct (mr_reply C (project self) mr_number (S (mr_gets w)))
    as [mr'|e1] eqn:Hget'.
  2:{ cbn [wait_loop] in Hres.
      rewrite (bind_ok _ _ _ _ _ (timeout_reached_run w)), Hdue in Hres.
      rewrite (bind_ok _ _ _ _ _ (mergerequests_get_returns w mr Hget)) in Hres.
      rewrite (bind_ok _ _ _ _ _ (getattr_some mr "iid" iid _ Hiid)) in Hres.
      rewrite (bind_ok _ _ _ _ _ (getattr_some mr "state" st _ Hst)) in Hres.
      unfold bind at 1 in Hres. cbn [logger] in Hres.
      unfold bind at 1, has_merge_conflicts in Hres.
      unfold bind at 1, mergerequests_get in Hres.
      cbn [mr_gets] in Hres. rewrite Hget' in Hres.
      injection Hres as <-. eauto. }
  destruct (wait_loop_cycle w mr mr' iid st (Hdue _) Hget Hiid Hst Hget')
    as (w1 & _ & _ & _ & Hloop).
  rewrite Hloop in Hres.
  destruct (conflicted mr').
  { injection Hres as <-. discriminate. }
  destruct (py_in st close_statuses); [discriminate|].
  unfold bind, time_sleep in Hres.
  destruct (check_interval <? 0).
  { injection Hres as <-. discriminate. }
  eapply IH; eauto.
Qed.

End Watcher.

(** ** The watcher's exits *)

(** C1: on a server that shows a merge request whose state is a string,
    a watch without timeout never returns: granted [fuel] cycles it has
    polled and slept [fuel] times and is still in the loop.  So it is
    for ["locked"], ["merged"], ["closed"] and for the values of the
    members, ["Locked"], ["Merged"], ["Closed"]. *)
Theorem wait_until_mr_finished_string_state (s : string) (i : Z)
    (fuel : nat) w :
  let r := wait_until_mr_finished
             (serving (snapshot i (PStr s) (Some (PBool false)) None))
             a_client fuel (PInt i) 10 None w in
  fst r = OutOfFuel /\ sleeps (snd r) = (repeat 10 fuel ++ sleeps w)%list.
Proof.
  cbv zeta. rewrite wait_until_mr_finished_unfold.
  match goal with
  | |- context [wait_loop ?C ?c fuel ?n ?ci ?t ?st ?w0] =>
      destruct (wait_loop_quiet_prefix C c n ci t st fuel w0)
        as (w' & _ & _ & Hsleeps & Hloop)
  end.
  - lia.
  - intros j _. split; [|reflexivity].
    exists (snapshot i (PStr s) (Some (PBool false)) None),
           (snapshot i (PStr s) (Some (PBool false)) None), (PInt i), (PStr s).
    repeat split; reflexivity.
  - specialize (Hloop O). rewrite Nat.add_0_r in Hloop. rewrite Hloop.
    split; [reflexivity|]. exact Hsleeps.
Qed.

(** Had the server sent members of [GitLabStatus], the watch would
    return on the first poll that shows [CLOSE], [MERGE] or [LOCKE]. *)
Lemma wait_until_mr_finished_on_member C self mr_number check_interval
    fuel w (mr mr' : MR) iid s :
  mr_reply C (project self) mr_number (mr_gets w) = Returns mr ->
  mr !! "iid" = Some iid ->
  mr !! "state" = Some (PEnum s) ->
  s <> OPEN ->
  mr_reply C (project self) mr_number (S (mr_gets w)) = Returns mr' ->
  conflicted mr' = false ->
  let r := wait_until_mr_finished C self (S fuel) mr_number check_interval
             None w in
  fst r = Ok tt /\ sleeps (snd r) = sleeps w.
Proof.
  intros Hget Hiid Hst Hs Hget' Hquiet. cbv zeta.
  rewrite wait_until_mr_finished_unfold.
  match goal with
  | |- context [wait_loop _ _ _ _ _ ?t ?st ?w0] =>
      destruct (wait_loop_cycle C self mr_number check_interval t st w0
                  mr mr' iid (PEnum s) eq_refl Hget Hiid Hst Hget')
        as (w1 & _ & _ & Hsleeps & Hloop)
  end.
  rewrite Hloop, Hquiet.
  replace (py_in (PEnum s) close_statuses) with true by now destruct s.
  split; [reflexivity | exact Hsleeps].
Qed.

(** C2, amended: with a timeout that is set and not [0], the watch
    raises [TimeoutError] at the start of the first poll cycle at which
    the elapsed time is strictly greater than the timeout, the cycles
    before it having found nothing: it has then slept once and fetched
    twice per earlier cycle, and on the late cycle it fetches nothing, so
    the check comes before that cycle's conflict and state checks. *)
Theorem timeout_on_first_late_cycle C self mr_number check_interval
    (T : Z) (k fuel : nat) w :
  T <> 0 ->
  ((0 < k)%nat -> 0 <= check_interval) ->
  (forall j, (j < k)%nat ->
     quiet_cycle C (project self) mr_number (mr_gets w + 2 * j) /\
     clock_after C (mr_gets w) (now w) check_interval j - now w <= T) ->
  clock_after C (mr_gets w) (now w) check_interval k - now w > T ->
  (k < fuel)%nat ->
  let r := wait_until_mr_finished C self fuel mr_number check_interval
             (Some T) w in
  fst r = Raise (mkExn TimeoutError
                   ("⏰ Timeout reached while waiting for MR !"
                    ++ py_str mr_number ++ " to be merged.")) /\
  sleeps (snd r) = (repeat check_interval k ++ sleeps w)%list /\
  mr_gets (snd r) = (mr_gets w + 2 * k)%nat.
Proof.
  intros HT Hci Hquiet Hlate Hfuel. cbv zeta.
  rewrite wait_until_mr_finished_unfold.
  assert (Htruthy : truthy (PInt T) = true).
  { simpl. now destruct (Z.eqb_spec T 0). }
  match goal with
  | |- context [wait_loop _ _ _ _ _ ?t ?st ?w0] =>
      destruct (wait_loop_quiet_prefix C self mr_number check_interval t st
                  k w0 Hci)
        as (w' & Hnow & Hgets & Hsleeps & Hloop)
  end.
  { intros j Hj. destruct (Hquiet j Hj) as [Hq Hle]. split; [exact Hq|].
    cbn [timeout_due now mr_gets]. rewrite Htruthy. cbn [andb].
    rewrite Z.gtb_ltb. apply Z.ltb_ge. exact Hle. }
  cbn [now mr_gets sleeps] in Hnow, Hgets, Hsleeps.
  replace fuel with (k + S (fuel - S k))%nat by lia.
  rewrite Hloop. cbn [wait_loop].
  rewrite (bind_ok _ _ _ _ _ (timeout_reached_run (Some T) (now w) w')).
  replace (timeout_due (Some T) (now w' - now w)) with true.
  - cbn. auto.
  - symmetry. cbn [timeout_due]. rewrite Htruthy, Hnow. cbn [andb].
    rewrite Z.gtb_ltb. apply Z.ltb_lt. lia.
Qed.

(** C3: when, on a poll cycle that the watch reaches and that is not
    late, [has_merge_conflicts] finds a conflict in the merge request it
    fetches, the watch raises the conflict exception on that cycle: the
    only sleeps are those of the cycles before it. *)
Theorem conflict_raises_without_sleeping C self mr_number check_interval
    timeout (k fuel : nat) w (mr mr' : MR) iid st :
  ((0 < k)%nat -> 0 <= check_interval) ->
  (forall j, (j <= k)%nat ->
     timeout_due timeout
       (clock_after C (mr_gets w) (now w) check_interval j - now w) = false) ->
  (forall j, (j < k)%nat ->
     quiet_cycle C (project self) mr_number (mr_gets w + 2 * j)) ->
  mr_reply C (project self) mr_number (mr_gets w + 2 * k) = Returns mr ->
  mr !! "iid" = Some iid ->
  mr !! "state" = Some st ->
  mr_reply C (project self) mr_number (S (mr_gets w + 2 * k)) = Returns mr' ->
  conflicted mr' = true ->
  (k < fuel)%nat ->
  let r := wait_until_mr_finished C self fuel mr_number check_interval
             timeout w in
  fst r = Raise (mkExn ExceptionC
                   ("🔍 MR !" ++ py_str mr_number ++ " has conflicts.")) /\
  sleeps (snd r) = (repeat check_interval k ++ sleeps w)%list.
Proof.
  intros Hci Hdue Hquiet Hget Hiid Hst Hget' Hconf Hfuel. cbv zeta.
  rewrite wait_until_mr_finished_unfold.
  match goal with
  | |- context [wait_loop _ _ _ _ _ ?t ?st ?w0] =>
      destruct (wait_loop_quiet_prefix C self mr_number check_interval t st
                  k w0 Hci)
        as (w' & Hnow & Hgets & Hsleeps & Hloop)
  end.
  { intros j Hj. split; [now apply Hquiet | apply Hdue; lia]. }
  cbn [now mr_gets sleeps] in Hnow, Hgets, Hsleeps.
  replace fuel with (k + S (fuel - S k))%nat by lia.
  rewrite Hloop.
  rewrite <- Hgets in Hget, Hget'.
  assert (Hnotlate : timeout_due timeout (now w' - now w) = false).
  { rewrite Hnow. apply Hdue. lia. }
  destruct (wait_loop_cycle C self mr_number check_interval timeout (now w)
              w' mr mr' iid st Hnotlate Hget Hiid Hst Hget')
    as (w1 & _ & _ & Hsleeps1 & Hcycle).
  rewrite Hcycle, Hconf. cbn [raise fst snd].
  split; [reflexivity|]. now rewrite Hsleeps1.
Qed.

(** C9: timeout [0] is no timeout.  The watch with timeout [0] is the
    watch with timeout [None], cycle for cycle; and whatever it raises,
    after however many cycles, is a [TimeoutError] only if an answer of
    the server carried one. *)
Theorem timeout_zero_is_no_timeout C self mr_number check_interval
    (fuel : nat) w :
  wait_until_mr_finished C self fuel mr_number check_interval (Some 0) w
  = wait_until_mr_finished C self fuel mr_number check_interval None w /\
  ((forall g e', mr_reply C (project self) mr_number g = Throws e' ->
                 exc_class e' <> TimeoutError) ->
   forall e,
     fst (wait_until_mr_finished C self fuel mr_number check_interval
            (Some 0) w) = Raise e ->
     exc_class e <> TimeoutError).
Proof.
  split.
  - rewrite !wait_until_mr_finished_unfold.
    assert (Hsame : forall start_time,
              wait_loop C self fuel mr_number check_interval (Some 0) start_time
              = wait_loop C self fuel mr_number check_interval None start_time).
    { intros start_time. induction fuel as [|n IH]; [reflexivity|].
      cbn [wait_loop]. now rewrite IH. }
    now rewrite Hsame.
  - intros Hsrv e Hres. rewrite wait_until_mr_finished_unfold in Hres.
    eapply wait_loop_timeout_error_origin; [ | exact Hsrv | exact Hres].
    intros elapsed. apply timeout_due_falsy. now right.
Qed.

(** ** The scenarios, run *)

(** Merge request 7 with the conflict flag up is reported, though its
    detailed status says mergeable. *)
Lemma has_merge_conflicts_flag_true_witness :
  mr_reply (serving conflicting) (project a_client) (PInt 7) (mr_gets fresh)
  = Returns conflicting /\
  conflicting !! "has_conflicts" = Some (PBool true) /\
  fst (has_merge_conflicts (serving conflicting) a_client (PInt 7) fresh)
  = Ok true.
Proof.
  split; [reflexivity|]. split; [reflexivity|].
  apply (has_merge_conflicts_flag_true (serving conflicting) a_client (PInt 7)
           fresh conflicting); reflexivity.
Defined.

(** Without the flag, ["cannot_be_merged"] is reported. *)
Lemma has_merge_conflicts_fallback_witness :
  mr_reply (serving unmergeable) (project a_client) (PInt 7) (mr_gets fresh)
  = Returns unmergeable /\
  unmergeable !! "has_conflicts" = None /\
  unmergeable !! "detailed_merge_status" = Some (PStr "cannot_be_merged") /\
  fst (has_merge_conflicts (serving unmergeable) a_client (PInt 7) fresh)
  = Ok true.
Proof.
  split; [reflexivity|]. split; [reflexivity|]. split; [reflexivity|].
  apply (has_merge_conflicts_fallback (serving unmergeable) a_client (PInt 7)
           fresh unmergeable); [reflexivity | left; reflexivity |].
  right; reflexivity.
Defined.

(** The server says 401: no client, one call of [auth], a [ValueError]. *)
Lemma init_auth_failure_witness :
  auth_reply (refusing ∅) "https://gitlab.example"
    (py_or (Some "tok") (environ (refusing ∅) !! "GITLAB_ACCESS_TOKEN"))
    (auth_calls fresh)
  = Throws (mkExn GitlabError "401 Unauthorized") /\
  fst (init (refusing ∅) "https://gitlab.example" (Some "tok") "group/repo" fresh)
  = Raise (mkExn ValueError
             "Failed to authenticate with GitLab: 401 Unauthorized") /\
  auth_calls
    (snd (init (refusing ∅) "https://gitlab.example" (Some "tok") "group/repo"
            fresh)) = 1%nat.
Proof.
  split; [reflexivity|].
  destruct (init_auth_failure (refusing ∅) "https://gitlab.example"
              (Some "tok") "group/repo" fresh
              (mkExn GitlabError "401 Unauthorized") eq_refl)
    as (_ & Hval & Hcalls & _).
  split; [apply Hval; reflexivity | exact Hcalls].
Defined.

(** An empty token given, ["env-token"] in the environment: the client
    holds ["env-token"]. *)
Lemma init_token_witness :
  let C := accepting {[ "GITLAB_ACCESS_TOKEN" := "env-token" ]} in
  auth_reply C "https://gitlab.example"
    (py_or (Some "") (environ C !! "GITLAB_ACCESS_TOKEN")) (auth_calls fresh)
  = Returns tt /\
  project_reply C "group/repo" (project_gets fresh) = Returns "group/repo" /\
  exists c,
    fst (init C "https://gitlab.example" (Some "") "group/repo" fresh) = Ok c /\
    gitlab_access_token c = Some "env-token".
Proof.
  cbv zeta. split; [reflexivity|]. split; [reflexivity|].
  destruct (init_token (accepting {[ "GITLAB_ACCESS_TOKEN" := "env-token" ]})
              "https://gitlab.example" (Some "") "group/repo" fresh
              "group/repo" eq_refl eq_refl)
    as (c & Hc & _ & Henv & _).
  exists c. split; [exact Hc|].
  rewrite Henv; [reflexivity | right; reflexivity].
Defined.

(** Interval 10, timeout 25, an open merge request at every poll: polls
    at 0, 10 and 20, [TimeoutError] at 30, before the fetch that the
    server would have failed. *)
Lemma timeout_on_first_late_cycle_witness :
  let C := serving_first 6 opened in
  let r := wait_until_mr_finished C a_client 4 (PInt 7) 10 (Some 25) fresh in
  25 <> 0 /\
  ((0 < 3)%nat -> 0 <= 10) /\
  (forall j, (j < 3)%nat ->
     quiet_cycle C (project a_client) (PInt 7) (mr_gets fresh + 2 * j) /\
     clock_after C (mr_gets fresh) (now fresh) 10 j - now fresh <= 25) /\
  clock_after C (mr_gets fresh) (now fresh) 10 3 - now fresh > 25 /\
  (3 < 4)%nat /\
  fst r = Raise (mkExn TimeoutError
                   "⏰ Timeout reached while waiting for MR !7 to be merged.") /\
  sleeps (snd r) = [10; 10; 10] /\
  mr_gets (snd r) = 6%nat.
Proof.
  cbv zeta.
  assert (Hquiet : forall j, (j < 3)%nat ->
            quiet_cycle (serving_first 6 opened) (project a_client) (PInt 7)
              (mr_gets fresh + 2 * j) /\
            clock_after (serving_first 6 opened) (mr_gets fresh) (now fresh)
              10 j - now fresh <= 25).
  { intros j Hj.
    destruct j as [|[|[|j]]]; [| | | lia];
      (split; [exists opened, opened, (PInt 7), (PStr "opened");
               repeat split; reflexivity
              | vm_compute; discriminate]). }
  split; [discriminate|]. split; [lia|]. split; [exact Hquiet|].
  split; [reflexivity|]. split; [lia|].
  apply (timeout_on_first_late_cycle (serving_first 6 opened) a_client (PInt 7)
           10 25 3 4 fresh); [discriminate | lia | exact Hquiet | reflexivity | lia].
Defined.

(** C2 as stated, at timeout [0]: the first cycle finds nothing and is not
    late, the second starts at elapsed time [10 > 0]; yet nothing is
    raised there: after two cycles the watch has slept twice and is still
    in the loop. *)
Lemma timeout_zero_not_raised :
  let C := serving opened in
  let r := wait_until_mr_finished C a_client 2 (PInt 7) 10 (Some 0) fresh in
  quiet_cycle C (project a_client) (PInt 7) 0 /\
  clock_after C 0 0 10 0 - 0 <= 0 /\
  clock_after C 0 0 10 1 - 0 > 0 /\
  fst r = OutOfFuel /\
  sleeps (snd r) = [10; 10] /\
  mr_gets (snd r) = 4%nat.
Proof.
  cbv zeta. split.
  { exists opened, opened, (PInt 7), (PStr "opened"). repeat split; reflexivity. }
  split; [vm_compute; discriminate|]. repeat split; reflexivity.
Qed.

(** The first poll shows the conflict flag and state ["opened"]: the
    conflict exception, and no sleep at all. *)
Lemma conflict_raises_without_sleeping_witness :
  let C := serving conflicting in
  let r := wait_until_mr_finished C a_client 1 (PInt 7) 10 None fresh in
  ((0 < 0)%nat -> 0 <= 10) /\
  (forall j, (j <= 0)%nat ->
     timeout_due None (clock_after C (mr_gets fresh) (now fresh) 10 j
                       - now fresh) = false) /\
  (forall j, (j < 0)%nat ->
     quiet_cycle C (project a_client) (PInt 7) (mr_gets fresh + 2 * j)) /\
  mr_reply C (project a_client) (PInt 7) (mr_gets fresh + 2 * 0)
  = Returns conflicting /\
  conflicting !! "iid" = Some (PInt 7) /\
  conflicting !! "state" = Some (PStr "opened") /\
  mr_reply C (project a_client) (PInt 7) (S (mr_gets fresh + 2 * 0))
  = Returns conflicting /\
  conflicted conflicting = true /\
  (0 < 1)%nat /\
  fst r = Raise (mkExn ExceptionC "🔍 MR !7 has conflicts.") /\
  sleeps (snd r) = [].
Proof.
  cbv zeta.
  split; [lia|]. split; [reflexivity|]. split; [lia|].
  split; [reflexivity|]. split; [reflexivity|]. split; [reflexivity|].
  split; [reflexivity|]. split; [reflexivity|]. split; [lia|].
  apply (conflict_raises_without_sleeping (serving conflicting) a_client
           (PInt 7) 10 None 0 1 fresh conflicting conflicting (PInt 7)
           (PStr "opened"));
    (lia || reflexivity).
Defined.

(** Timeout [0] on an open merge request: five cycles, as with no
    timeout, and no [TimeoutError]. *)
Lemma timeout_zero_is_no_timeout_witness :
  let C := serving opened in
  (forall g e', mr_reply C (project a_client) (PInt 7) g = Throws e' ->
                exc_class e' <> TimeoutError) /\
  wait_until_mr_finished C a_client 5 (PInt 7) 10 (Some 0) fresh
  = wait_until_mr_finished C a_client 5 (PInt 7) 10 None fresh /\
  forall e,
    fst (wait_until_mr_finished C a_client 5 (PInt 7) 10 (Some 0) fresh)
    = Raise e ->
    exc_class e <> TimeoutError.
Proof.
  cbv zeta. split; [intros g e' H; discriminate H|].
  destruct (timeout_zero_is_no_timeout (serving opened) a_client (PInt 7) 10 5
              fresh) as [Hsame Horigin].
  split; [exact Hsame|].
  apply Horigin. intros g e' H. discriminate H.
Defined.

(** * Further properties *)

(** ** [is_connected] and the constructor *)

(** [is_connected] with [raise_if_not_connected] left at [False] calls
    [gitlab.auth()] once; it answers [True] and logs the connection when
    the call succeeds, answers [False] and logs the failure when the call
    raises something [except Exception] catches, and lets anything else
    ([KeyboardInterrupt], [SystemExit]) through without a log record. *)
Theorem is_connected_without_raising C address g w :
  let r := is_connected C address g false w in
  auth_calls (snd r) = S (auth_calls w) /\
  match auth_reply C (url g) (private_token g) (auth_calls w) with
  | Returns _ =>
      fst r = Ok true /\
      log (snd r)
      = (INFO, "Successfully connected to GitLab at " ++ address) :: log w
  | Throws e =>
      if is_Exception (exc_class e) then
        fst r = Ok false /\
        log (snd r)
        = (ERROR, "Failed to authenticate with GitLab: " ++ exc_msg e) :: log w
      else fst r = Raise e /\ log (snd r) = log w
  end.
Proof.
  unfold is_connected, try_except, bind, gitlab_auth. cbn.
  destruct (auth_reply C (url g) (private_token g) (auth_calls w)) as [[]|e];
    cbn; [auto|].
  destruct (is_Exception (exc_class e)); cbn; auto.
Qed.

(** [is_connected] with [raise_if_not_connected=True] never answers
    [False]: it answers [True] exactly when [gitlab.auth()] succeeds, and
    when it raises it has logged nothing. *)
Theorem is_connected_raising C address g w :
  let r := is_connected C address g true w in
  fst r <> Ok false /\
  (fst r = Ok true <->
   auth_reply C (url g) (private_token g) (auth_calls w) = Returns tt) /\
  (forall e, fst r = Raise e -> log (snd r) = log w).
Proof.
  unfold is_connected, try_except, bind, gitlab_auth. cbn.
  destruct (auth_reply C (url g) (private_token g) (auth_calls w)) as [[]|e];
    cbn.
  - repeat split; intros; discriminate || reflexivity.
  - destruct (is_Exception (exc_class e)); cbn;
      (repeat split; intros; discriminate || reflexivity).
Qed.

(** When authentication succeeds and the project is found, the
    constructor returns a client that holds the address, the resolved
    token (also inside its [gitlab] handle) and the project the server
    returned; it has called [gitlab.auth()] once and [projects.get] once,
    fetched no merge request and logged the connection. *)
Theorem init_success C address given project_id w p :
  auth_reply C address
    (py_or given (environ C !! "GITLAB_ACCESS_TOKEN")) (auth_calls w)
  = Returns tt ->
  project_reply C project_id (project_gets w) = Returns p ->
  let token := py_or given (environ C !! "GITLAB_ACCESS_TOKEN") in
  let r := init C address given project_id w in
  fst r = Ok (mkClient address token (mkGitlab address token) p) /\
  auth_calls (snd r) = S (auth_calls w) /\
  project_gets (snd r) = S (project_gets w) /\
  mr_gets (snd r) = mr_gets w /\
  log (snd r)
  = (INFO, "Successfully connected to GitLab at " ++ address) :: log w.
Proof.
  intros Hauth Hproj.
  unfold init, is_connected, try_except, bind, gitlab_auth, projects_get.
  cbn. rewrite Hauth. cbn. rewrite Hproj. cbn. auto.
Qed.

(** When authentication succeeds and [projects.get] fails, the constructor
    raises the server's exception as it is, of whatever class: only the
    authentication check is turned into a [ValueError]. *)
Theorem init_project_failure C address given project_id w e :
  auth_reply C address
    (py_or given (environ C !! "GITLAB_ACCESS_TOKEN")) (auth_calls w)
  = Returns tt ->
  project_reply C project_id (project_gets w) = Throws e ->
  let r := init C address given project_id w in
  fst r = Raise e /\
  auth_calls (snd r) = S (auth_calls w) /\
  project_gets (snd r) = S (project_gets w).
Proof.
  intros Hauth Hproj.
  unfold init, is_connected, try_except, bind, gitlab_auth, projects_get.
  cbn. rewrite Hauth. cbn. rewrite Hproj. cbn. auto.
Qed.

(** ** The classifiers at their edges *)

Section ClassifierEdges.

Variables (C : Collaborator) (self : GitLabClient) (mr_number : pyval).

Lemma has_merge_conflicts_footprint w :
  footprint w (snd (has_merge_conflicts C self mr_number w)) 1 [].
Proof.
  unfold footprint, has_merge_conflicts, bind, mergerequests_get, hasattr,
    getattr.
  destruct (mr_reply C (project self) mr_number (mr_gets w)) as [mr|e];
    cbn -[py_in truthy]; [|repeat split; lia].
  destruct (mr !! "has_conflicts") as [v|]; cbn -[py_in truthy].
  - destruct (truthy v); cbn -[py_in truthy]; [repeat split; lia|].
    destruct (mr !! "detailed_merge_status") as [d|]; cbn -[py_in truthy];
      [destruct (py_in d conflict_statuses); cbn|]; repeat split; lia.
  - destruct (mr !! "detailed_merge_status") as [d|]; cbn -[py_in truthy];
      [destruct (py_in d conflict_statuses); cbn|]; repeat split; lia.
Qed.

(** [has_merge_conflicts] answers for every merge request the server
    returns, whatever fields it lacks: it never raises [AttributeError].
    It logs one error record when it reports a conflict and nothing when
    it does not. *)
Theorem has_merge_conflicts_total w (mr : MR) :
  mr_reply C (project self) mr_number (mr_gets w) = Returns mr ->
  let r := has_merge_conflicts C self mr_number w in
  fst r = Ok (conflicted mr) /\
  (conflicted mr = false -> log (snd r) = log w) /\
  (conflicted mr = true ->
   exists msg, log (snd r) = (ERROR, msg) :: log w).
Proof.
  intros Hget.
  unfold has_merge_conflicts, conflicted, bind, mergerequests_get, hasattr,
    getattr.
  rewrite Hget. cbn -[py_in truthy].
  destruct (mr !! "has_conflicts") as [v|]; cbn -[py_in truthy].
  - destruct (truthy v); cbn -[py_in truthy].
    + repeat split; intros; try discriminate; eauto.
    + destruct (mr !! "detailed_merge_status") as [d|]; cbn -[py_in truthy];
        [destruct (py_in d conflict_statuses); cbn|];
        repeat split; intros; try discriminate; eauto.
  - destruct (mr !! "detailed_merge_status") as [d|]; cbn -[py_in truthy];
      [destruct (py_in d conflict_statuses); cbn|];
      repeat split; intros; try discriminate; eauto.
Qed.

(** Any truthy [has_conflicts] counts as a conflict, not only [True]: a
    non-zero number, a non-empty string.  A falsy one ([False], [None],
    [0], the empty string) leaves the answer to [detailed_merge_status],
    as an absent one does. *)
Theorem has_merge_conflicts_truthiness w (mr : MR) v :
  mr_reply C (project self) mr_number (mr_gets w) = Returns mr ->
  mr !! "has_conflicts" = Some v ->
  (truthy v = true ->
   fst (has_merge_conflicts C self mr_number w) = Ok true) /\
  (truthy v = false ->
   fst (has_merge_conflicts C self mr_number w)
   = Ok (match mr !! "detailed_merge_status" with
         | Some d => py_in d conflict_statuses
         | None => false
         end)).
Proof.
  intros Hget Hflag.
  destruct (has_merge_conflicts_run C self mr_number w mr Hget)
    as (w' & Hrun & _).
  rewrite Hrun. unfold conflicted. rewrite Hflag. cbn [fst].
  split; intros ->; reflexivity.
Qed.

(** A failure of the fetch comes out of each of the four readers as the
    exception the server raised. *)
Theorem readers_propagate w e :
  mr_reply C (project self) mr_number (mr_gets w) = Throws e ->
  fst (get_mr_status C self mr_number w) = Raise e /\
  fst (has_merge_conflicts C self mr_number w) = Raise e /\
  fst (is_mr_merged C self mr_number w) = Raise e /\
  fst (is_mr_open C self mr_number w) = Raise e.
Proof.
  intros Hget.
  unfold get_mr_status, has_merge_conflicts, is_mr_merged, is_mr_open, bind,
    mergerequests_get.
  now rewrite Hget.
Qed.

(** A merge request without [state] makes [get_mr_status], [is_mr_merged]
    and [is_mr_open] raise [AttributeError], with no log record from the
    two classifiers. *)
Theorem readers_missing_state w (mr : MR) :
  mr_reply C (project self) mr_number (mr_gets w) = Returns mr ->
  mr !! "state" = None ->
  fst (get_mr_status C self mr_number w) = Raise (mkExn AttributeError "state") /\
  (fst (is_mr_merged C self mr_number w) = Raise (mkExn AttributeError "state") /\
   log (snd (is_mr_merged C self mr_number w)) = log w) /\
  (fst (is_mr_open C self mr_number w) = Raise (mkExn AttributeError "state") /\
   log (snd (is_mr_open C self mr_number w)) = log w).
Proof.
  intros Hget Hst.
  unfold get_mr_status, is_mr_merged, is_mr_open, bind, mergerequests_get,
    getattr.
  rewrite Hget. cbn. rewrite Hst. auto.
Qed.

(** [is_mr_merged] answers [True] only for a state that is the member
    [GitLabStatus.MERGE], [is_mr_open] only for the member
    [GitLabStatus.OPEN]; so they never both answer [True] about the same
    merge request. *)
Theorem is_mr_merged_open_exclusive w w' (mr : MR) :
  mr_reply C (project self) mr_number (mr_gets w) = Returns mr ->
  mr_reply C (project self) mr_number (mr_gets w') = Returns mr ->
  (fst (is_mr_merged C self mr_number w) = Ok true ->
   mr !! "state" = Some (PEnum MERGE)) /\
  (fst (is_mr_open C self mr_number w') = Ok true ->
   mr !! "state" = Some (PEnum OPEN)) /\
  ~ (fst (is_mr_merged C self mr_number w) = Ok true /\
     fst (is_mr_open C self mr_number w') = Ok true).
Proof.
  intros Hget Hget'.
  assert (Hm : fst (is_mr_merged C self mr_number w) = Ok true ->
               mr !! "state" = Some (PEnum MERGE)).
  { destruct (mr !! "state") as [st|] eqn:Hst.
    - rewrite (is_mr_merged_run C self mr_number w mr st Hget Hst).
      intros [= Heq]. apply py_eq_enum in Heq. now subst.
    - unfold is_mr_merged, bind, mergerequests_get, getattr.
      rewrite Hget. cbn. rewrite Hst. discriminate. }
  assert (Ho : fst (is_mr_open C self mr_number w') = Ok true ->
               mr !! "state" = Some (PEnum OPEN)).
  { destruct (mr !! "state") as [st|] eqn:Hst.
    - rewrite (is_mr_open_run C self mr_number w' mr st Hget' Hst).
      intros [= Heq]. apply py_eq_enum in Heq. now subst.
    - unfold is_mr_open, bind, mergerequests_get, getattr.
      rewrite Hget'. cbn. rewrite Hst. discriminate. }
  repeat split; [exact Hm | exact Ho |].
  intros [H1 H2]. specialize (Hm H1). specialize (Ho H2). congruence.
Qed.

End ClassifierEdges.

(** ** The watcher at its edges *)

Lemma py_in_close_statuses st :
  py_in st close_statuses = true <-> exists s, st = PEnum s /\ s <> OPEN.
Proof.
  split.
  - destruct st as [| | | |s]; try discriminate.
    intros H. exists s. split; [reflexivity|]. now destruct s.
  - intros (s & -> & Hs). now destruct s.
Qed.

Lemma footprint_refl w : footprint w w 0 [].
Proof. unfold footprint. repeat split; lia. Qed.

Lemma footprint_trans w w1 w2 f1 f2 s1 s2 :
  footprint w w1 f1 s1 -> footprint w1 w2 f2 s2 ->
  footprint w w2 (f1 + f2) (s2 ++ s1).
Proof.
  intros (Ha & Hp & Hg & Hs) (Ha' & Hp' & Hg' & Hs').
  unfold footprint. rewrite Ha', Hp', Hg', Hs', Ha, Hp, Hg, Hs.
  repeat split; [lia | now rewrite app_assoc].
Qed.

Section WatcherEdges.

Variables (C : Collaborator) (self : GitLabClient) (mr_number : pyval)
  (check_interval : Z) (timeout : option Z).

Lemma mergerequests_get_footprint w :
  footprint w (snd (mergerequests_get C (project self) mr_number w)) 1 [].
Proof. unfold footprint, mergerequests_get. cbn. repeat split; lia. Qed.

Lemma wait_loop_late start_time fuel w :
  timeout_due timeout (now w - start_time) = true ->
  wait_loop C self (S fuel) mr_number check_interval timeout start_time w
  = (Raise (mkExn TimeoutError
              ("⏰ Timeout reached while waiting for MR !"
               ++ py_str mr_number ++ " to be merged.")), w).
Proof.
  intros Hdue. cbn [wait_loop].
  now rewrite (bind_ok _ _ _ _ _ (timeout_reached_run timeout start_time w)),
    Hdue.
Qed.

Lemma wait_loop_fetch_throws start_time fuel w e :
  timeout_due timeout (now w - start_time) = false ->
  mr_reply C (project self) mr_number (mr_gets w) = Throws e ->
  wait_loop C self (S fuel) mr_number check_interval timeout start_time w
  = (Raise e, snd (mergerequests_get C (project self) mr_number w)).
Proof.
  intros Hdue Hget. cbn [wait_loop].
  rewrite (bind_ok _ _ _ _ _ (timeout_reached_run timeout start_time w)), Hdue.
  unfold bind at 1, mergerequests_get. now rewrite Hget.
Qed.

Lemma wait_loop_missing_iid start_time fuel w (mr : MR) :
  timeout_due timeout (now w - start_time) = false ->
  mr_reply C (project self) mr_number (mr_gets w) = Returns mr ->
  mr !! "iid" = None ->
  wait_loop C self (S fuel) mr_number check_interval timeout start_time w
  = (Raise (mkExn AttributeError "iid"),
     snd (mergerequests_get C (project self) mr_number w)).
Proof.
  intros Hdue Hget Hiid. cbn [wait_loop].
  rewrite (bind_ok _ _ _ _ _ (timeout_reached_run timeout start_time w)), Hdue.
  rewrite (bind_ok _ _ _ _ _
             (mergerequests_get_returns C self mr_number w mr Hget)).
  unfold bind at 1, getattr. rewrite Hiid.
  unfold mergerequests_get. now rewrite Hget.
Qed.

Lemma wait_loop_missing_state start_time fuel w (mr : MR) iid :
  timeout_due timeout (now w - start_time) = false ->
  mr_reply C (project self) mr_number (mr_gets w) = Returns mr ->
  mr !! "iid" = Some iid ->
  mr !! "state" = None ->
  wait_loop C self (S fuel) mr_number check_interval timeout start_time w
  = (Raise (mkExn AttributeError "state"),
     snd (mergerequests_get C (project self) mr_number w)).
Proof.
  intros Hdue Hget Hiid Hst. cbn [wait_loop].
  rewrite (bind_ok _ _ _ _ _ (timeout_reached_run timeout start_time w)), Hdue.
  rewrite (bind_ok _ _ _ _ _
             (mergerequests_get_returns C self mr_number w mr Hget)).
  rewrite (bind_ok _ _ _ _ _ (getattr_some mr "iid" iid _ Hiid)).
  unfold bind at 1, getattr. rewrite Hst.
  unfold mergerequests_get. now rewrite Hget.
Qed.

(** The cycle up to the answer of [has_merge_conflicts], whatever that
    answer is: two fetches, no sleep. *)
Lemma wait_loop_to_check start_time w (mr : MR) iid st :
  timeout_due timeout (now w - start_time) = false ->
  mr_reply C (project self) mr_number (mr_gets w) = Returns mr ->
  mr !! "iid" = Some iid ->
  mr !! "state" = Some st ->
  exists w0,
    footprint w w0 1 [] /\
    forall fuel,
      wait_loop C self (S fuel) mr_number check_interval timeout start_time w
      = (conflict <~ has_merge_conflicts C self mr_number ;>
         if conflict then
           raise ExceptionC ("🔍 MR !" ++ py_str mr_number ++ " has conflicts.")
         else if py_in st close_statuses then ret tt
         else
           time_sleep check_interval ;>
           wait_loop C self fuel mr_number check_interval timeout start_time)
          w0.
Proof.
  intros Hdue Hget Hiid Hst.
  exists (mkWorld (now w + latency C (mr_gets w)) (auth_calls w)
            (project_gets w) (S (mr_gets w)) (sleeps w)
            ((DEBUG, "MR (" ++ py_str iid ++ ") status is: " ++ py_str st)
             :: log w)).
  split; [unfold footprint; cbn; repeat split; lia|].
  intros fuel. cbn [wait_loop].
  rewrite (bind_ok _ _ _ _ _ (timeout_reached_run timeout start_time w)), Hdue.
  rewrite (bind_ok _ _ _ _ _
             (mergerequests_get_returns C self mr_number w mr Hget)).
  rewrite (bind_ok _ _ _ _ _ (getattr_some mr "iid" iid _ Hiid)).
  rewrite (bind_ok _ _ _ _ _ (getattr_some mr "state" st _ Hst)).
  reflexivity.
Qed.

(** What one cycle comes to: it ends the watch, after at most two fetches
    and without sleeping, and then with a normal return only on a state
    among [close_statuses]; or it sleeps [check_interval] after two
    fetches and hands over to the next cycle. *)
Lemma wait_loop_step start_time w :
  (exists r1 w1 f,
     (f <= 2)%nat /\ footprint w w1 f [] /\ r1 <> OutOfFuel /\
     (r1 = Ok tt ->
      exists (mr : MR) st,
        mr_reply C (project self) mr_number (mr_gets w) = Returns mr /\
        mr !! "state" = Some st /\ py_in st close_statuses = true) /\
     forall fuel,
       wait_loop C self (S fuel) mr_number check_interval timeout start_time w
       = (r1, w1))
  \/
  (exists w1,
     footprint w w1 2 [check_interval] /\
     forall fuel,
       wait_loop C self (S fuel) mr_number check_interval timeout start_time w
       = wait_loop C self fuel mr_number check_interval timeout start_time w1).
Proof.
  destruct (timeout_due timeout (now w - start_time)) eqn:Hdue.
  { left.
    exists (Raise (mkExn TimeoutError
                     ("⏰ Timeout reached while waiting for MR !"
                      ++ py_str mr_number ++ " to be merged."))), w, O.
    split; [lia|]. split; [apply footprint_refl|].
    split; [discriminate|]. split; [discriminate|].
    intros fuel. now apply wait_loop_late. }
  destruct (mr_reply C (project self) mr_number (mr_gets w)) as [mr|e] eqn:Hget.
  2:{ left.
      exists (Raise e), (snd (mergerequests_get C (project self) mr_number w)),
             1%nat.
      split; [lia|]. split; [apply mergerequests_get_footprint|].
      split; [discriminate|]. split; [discriminate|].
      intros fuel. now apply wait_loop_fetch_throws. }
  destruct (mr !! "iid") as [iid|] eqn:Hiid.
  2:{ left.
      exists (Raise (mkExn AttributeError "iid")),
             (snd (mergerequests_get C (project self) mr_number w)), 1%nat.
      split; [lia|]. split; [apply mergerequests_get_footprint|].
      split; [discriminate|]. split; [discriminate|].
      intros fuel. now apply (wait_loop_missing_iid start_time fuel w mr). }
  destruct (mr !! "state") as [st|] eqn:Hst.
  2:{ left.
      exists (Raise (mkExn AttributeError "state")),
             (snd (mergerequests_get C (project self) mr_number w)), 1%nat.
      split; [lia|]. split; [apply mergerequests_get_footprint|].
      split; [discriminate|]. split; [discriminate|].
      intros fuel. now apply (wait_loop_missing_state start_time fuel w mr iid). }
  destruct (wait_loop_to_check start_time w mr iid st Hdue Hget Hiid Hst)
    as (w0 & Hfoot0 & Hloop).
  pose proof (has_merge_conflicts_footprint C self mr_number w0) as Hfoot1.
  pose proof (footprint_trans _ _ _ _ _ _ _ Hfoot0 Hfoot1) as Hfoot.
  cbn [Nat.add app] in Hfoot.
  destruct (has_merge_conflicts C self mr_number w0) as [[[]| e |] w1] eqn:Hcheck;
    cbn [snd] in Hfoot.
  - left.
    exists (Raise (mkExn ExceptionC
                     ("🔍 MR !" ++ py_str mr_number ++ " has conflicts."))),
           w1, 2%nat.
    split; [lia|]. split; [exact Hfoot|].
    split; [discriminate|]. split; [discriminate|].
    intros fuel. rewrite Hloop. unfold bind at 1. now rewrite Hcheck.
  - destruct (py_in st close_statuses) eqn:Hclose.
    + left. exists (Ok tt), w1, 2%nat.
      split; [lia|]. split; [exact Hfoot|].
      split; [discriminate|]. split; [intros _; eauto|].
      intros fuel. rewrite Hloop. unfold bind at 1. rewrite Hcheck.
      now rewrite ?Hclose.
    + destruct (check_interval <? 0) eqn:Hneg.
      * left.
        exists (Raise (mkExn ValueError "sleep length must be non-negative")),
               w1, 2%nat.
        split; [lia|]. split; [exact Hfoot|].
        split; [discriminate|]. split; [discriminate|].
        intros fuel. rewrite Hloop. unfold bind at 1. rewrite Hcheck, ?Hclose.
        unfold bind, time_sleep. now rewrite Hneg.
      * right.
        exists (mkWorld (now w1 + check_interval) (auth_calls w1)
                  (project_gets w1) (mr_gets w1) (check_interval :: sleeps w1)
                  (log w1)).
        split.
        { destruct Hfoot as (Ha & Hp & Hg & Hs). unfold footprint. cbn.
          rewrite Ha, Hp, Hg, Hs. auto. }
        intros fuel. rewrite Hloop. unfold bind at 1. rewrite Hcheck, ?Hclose.
        unfold bind, time_sleep. now rewrite Hneg.
  - left. exists (Raise e), w1, 2%nat.
    split; [lia|]. split; [exact Hfoot|].
    split; [discriminate|]. split; [discriminate|].
    intros fuel. rewrite Hloop. unfold bind at 1. now rewrite Hcheck.
  - exfalso.
    destruct (mr_reply C (project self) mr_number (mr_gets w0)) as [mr'|e']
      eqn:Hget'.
    + destruct (has_merge_conflicts_run C self mr_number w0 mr' Hget')
        as (w' & Hrun & _). congruence.
    + pose proof (has_merge_conflicts_throws C self mr_number w0 e' Hget') as Hthrow.
      rewrite Hcheck in Hthrow. discriminate.
Qed.

Lemma wait_loop_footprint fuel : forall start_time w,
  let r := wait_loop C self fuel mr_number check_interval timeout
             start_time w in
  exists k f,
    (f <= 2)%nat /\
    footprint w (snd r) (2 * k + f) (repeat check_interval k) /\
    (fst r = OutOfFuel -> k = fuel /\ f = O) /\
    (fst r <> OutOfFuel -> (k < fuel)%nat).
Proof.
  induction fuel as [|fuel IH]; intros start_time w; cbv zeta.
  - exists O, O. cbn. split; [lia|]. split; [apply footprint_refl|].
    split; [auto | congruence].
  - destruct (wait_loop_step start_time w)
      as [(r1 & w1 & f & Hf & Hfoot & Hr1 & _ & Hloop) | (w1 & Hfoot & Hloop)].
    + rewrite Hloop. exists O, f. cbn [fst snd repeat Nat.mul Nat.add].
      split; [exact Hf|]. split; [exact Hfoot|]. split; [congruence | lia].
    + rewrite Hloop.
      destruct (IH start_time w1) as (k & f & Hf & Hfoot' & Hout & Hin).
      exists (S k), f. split; [exact Hf|]. split.
      * pose proof (footprint_trans _ _ _ _ _ _ _ Hfoot Hfoot') as Hall.
        replace (2 * S k + f)%nat with (2 + (2 * k + f))%nat by lia.
        cbn [repeat]. rewrite repeat_cons. exact Hall.
      * split; [intros Hr; destruct (Hout Hr); lia | intros Hr; specialize (Hin Hr); lia].
Qed.

Lemma wait_loop_return_sound fuel : forall start_time w,
  fst (wait_loop C self fuel mr_number check_interval timeout start_time w)
  = Ok tt ->
  exists g (mr : MR) s,
    (mr_gets w <= g)%nat /\
    mr_reply C (project self) mr_number g = Returns mr /\
    mr !! "state" = Some (PEnum s) /\ s <> OPEN.
Proof.
  induction fuel as [|fuel IH]; intros start_time w Hres; [discriminate|].
  destruct (wait_loop_step start_time w)
    as [(r1 & w1 & f & _ & _ & _ & Hok & Hloop) | (w1 & Hfoot & Hloop)].
  - rewrite Hloop in Hres. cbn [fst] in Hres.
    destruct (Hok Hres) as (mr & st & Hget & Hst & Hclose).
    apply py_in_close_statuses in Hclose. destruct Hclose as (s & -> & Hs).
    exists (mr_gets w), mr, s. auto.
  - rewrite Hloop in Hres.
    destruct (IH start_time w1 Hres) as (g & mr & s & Hg & Hrest).
    destruct Hfoot as (_ & _ & Hgets & _).
    exists g, mr, s. split; [lia | exact Hrest].
Qed.

(** The first [k] cycles of a watch that polls on. *)
Lemma wait_until_polls_on k w :
  polls_on C (project self) mr_number check_interval timeout w k ->
  exists w',
    now w' = clock_after C (mr_gets w) (now w) check_interval k /\
    mr_gets w' = (mr_gets w + 2 * k)%nat /\
    sleeps w' = (repeat check_interval k ++ sleeps w)%list /\
    forall fuel,
      wait_until_mr_finished C self (k + fuel) mr_number check_interval
        timeout w
      = wait_loop C self fuel mr_number check_interval timeout (now w) w'.
Proof.
  intros [Hci Hquiet].
  pose (w0 := mkWorld (now w) (auth_calls w) (project_gets w) (mr_gets w)
                (sleeps w)
                ((INFO, "⏳ Waiting for MR !" ++ py_str mr_number
                        ++ " to be merged...") :: log w)).
  destruct (wait_loop_quiet_prefix C self mr_number check_interval timeout
              (now w) k w0 Hci Hquiet)
    as (w' & Hnow & Hgets & Hsleeps & Hloop).
  exists w'. split; [exact Hnow|]. split; [exact Hgets|].
  split; [exact Hsleeps|].
  intros fuel. rewrite wait_until_mr_finished_unfold. apply Hloop.
Qed.

(** Whatever the server does and however the watch ends, it has made no
    authentication call and no project lookup; every sleep it took was
    [check_interval] long; with [k] sleeps it has made [2 * k] fetches and
    at most two more; and if it was still polling when its cycles ran out,
    it had slept once and fetched twice in each of them. *)
Theorem wait_until_mr_finished_footprint fuel w :
  let r := wait_until_mr_finished C self fuel mr_number check_interval
             timeout w in
  auth_calls (snd r) = auth_calls w /\
  project_gets (snd r) = project_gets w /\
  exists k f,
    (f <= 2)%nat /\
    sleeps (snd r) = (repeat check_interval k ++ sleeps w)%list /\
    mr_gets (snd r) = (mr_gets w + 2 * k + f)%nat /\
    (fst r = OutOfFuel -> k = fuel /\ f = O) /\
    (fst r <> OutOfFuel -> (k < fuel)%nat).
Proof.
  cbv zeta. rewrite wait_until_mr_finished_unfold.
  match goal with
  | |- context [wait_loop _ _ _ _ _ _ ?st ?w0] =>
      destruct (wait_loop_footprint fuel st w0)
        as (k & f & Hf & (Ha & Hp & Hg & Hs) & Hout & Hin)
  end.
  cbn [auth_calls project_gets mr_gets sleeps] in Ha, Hp, Hg, Hs.
  split; [exact Ha|]. split; [exact Hp|].
  exists k, f. repeat split; try assumption; try lia; now apply Hout.
Qed.

(** The watch returns normally only if some merge request it fetched had
    as state a member of [GitLabStatus] other than [OPEN]: on a server
    whose states are strings it never returns normally, with or without
    a timeout. *)
Theorem wait_until_mr_finished_return_sound fuel w :
  fst (wait_until_mr_finished C self fuel mr_number check_interval timeout w)
  = Ok tt ->
  exists g (mr : MR) s,
    (mr_gets w <= g)%nat /\
    mr_reply C (project self) mr_number g = Returns mr /\
    mr !! "state" = Some (PEnum s) /\ s <> OPEN.
Proof.
  rewrite wait_until_mr_finished_unfold. intros Hres.
  now apply wait_loop_return_sound in Hres.
Qed.

(** A fetch that fails, the loop's own or the one inside
    [has_merge_conflicts], ends the watch with the server's exception on
    the cycle it happens: no retry, no sleep on that cycle. *)
Theorem wait_until_mr_finished_fetch_failure (k fuel : nat) w e :
  polls_on C (project self) mr_number check_interval timeout w k ->
  timeout_due timeout
    (clock_after C (mr_gets w) (now w) check_interval k - now w) = false ->
  mr_reply C (project self) mr_number (mr_gets w + 2 * k) = Throws e \/
  (exists (mr : MR),
     mr_reply C (project self) mr_number (mr_gets w + 2 * k) = Returns mr /\
     is_Some (mr !! "iid") /\ is_Some (mr !! "state") /\
     mr_reply C (project self) mr_number (S (mr_gets w + 2 * k)) = Throws e) ->
  (k < fuel)%nat ->
  let r := wait_until_mr_finished C self fuel mr_number check_interval
             timeout w in
  fst r = Raise e /\
  sleeps (snd r) = (repeat check_interval k ++ sleeps w)%list.
Proof.
  intros Hpolls Hdue Hfail Hfuel. cbv zeta.
  destruct (wait_until_polls_on k w Hpolls)
    as (w' & Hnow & Hgets & Hsleeps & Hloop).
  replace fuel with (k + S (fuel - S k))%nat by lia.
  rewrite Hloop. rewrite <- Hnow in Hdue. rewrite <- Hgets in Hfail.
  destruct Hfail as [Hget | (mr & Hget & [iid Hiid] & [st Hst] & Hget')].
  - rewrite (wait_loop_fetch_throws (now w) _ w' e Hdue Hget).
    cbn [fst snd mergerequests_get sleeps]. auto.
  - destruct (wait_loop_to_check (now w) w' mr iid st Hdue Hget Hiid Hst)
      as (w0 & (_ & _ & Hgets0 & Hsleeps0) & Hcycle).
    rewrite Hcycle.
    replace (S (mr_gets w')) with (mr_gets w0) in Hget' by (rewrite Hgets0; lia).
    pose proof (has_merge_conflicts_throws C self mr_number w0 e Hget') as Hthrow.
    pose proof (has_merge_conflicts_footprint C self mr_number w0)
      as (_ & _ & _ & Hsleeps1).
    destruct (has_merge_conflicts C self mr_number w0) as [r1 w1] eqn:Hcheck.
    cbn [fst snd app] in Hthrow, Hsleeps1, Hsleeps0. subst r1.
    rewrite (bind_raise _ _ _ _ _ Hcheck). cbn [fst snd].
    split; [reflexivity|]. now rewrite Hsleeps1, Hsleeps0, Hsleeps.
Qed.

(** The debug record of each cycle reads [mr.iid] and [mr.state]: a merge
    request that lacks one of them ends the watch with [AttributeError],
    before [has_merge_conflicts] is asked. *)
Theorem wait_until_mr_finished_missing_field (k fuel : nat) w (mr : MR) :
  polls_on C (project self) mr_number check_interval timeout w k ->
  timeout_due timeout
    (clock_after C (mr_gets w) (now w) check_interval k - now w) = false ->
  mr_reply C (project self) mr_number (mr_gets w + 2 * k) = Returns mr ->
  (k < fuel)%nat ->
  let r := wait_until_mr_finished C self fuel mr_number check_interval
             timeout w in
  (mr !! "iid" = None -> fst r = Raise (mkExn AttributeError "iid")) /\
  (is_Some (mr !! "iid") -> mr !! "state" = None ->
   fst r = Raise (mkExn AttributeError "state")) /\
  (mr !! "iid" = None \/ mr !! "state" = None ->
   mr_gets (snd r) = S (mr_gets w + 2 * k) /\
   sleeps (snd r) = (repeat check_interval k ++ sleeps w)%list).
Proof.
  intros Hpolls Hdue Hget Hfuel. cbv zeta.
  destruct (wait_until_polls_on k w Hpolls)
    as (w' & Hnow & Hgets & Hsleeps & Hloop).
  replace fuel with (k + S (fuel - S k))%nat by lia.
  rewrite Hloop. rewrite <- Hnow in Hdue. rewrite <- Hgets in Hget.
  destruct (mr !! "iid") as [iid|] eqn:Hiid.
  - destruct (mr !! "state") as [st|] eqn:Hst.
    + split; [discriminate|]. split; [intros _ H; discriminate|].
      intros [H|H]; discriminate.
    + rewrite (wait_loop_missing_state (now w) _ w' mr iid Hdue Hget Hiid Hst).
      cbn [fst snd mergerequests_get mr_gets sleeps].
      split; [discriminate|]. split; [reflexivity|].
      intros _. now rewrite Hgets, Hsleeps.
  - rewrite (wait_loop_missing_iid (now w) _ w' mr Hdue Hget Hiid).
    cbn [fst snd mergerequests_get mr_gets sleeps].
    split; [reflexivity|]. split; [intros [x Hx]; discriminate|].
    intros _. now rewrite Hgets, Hsleeps.
Qed.

(** With a negative [check_interval] the first cycle that finds nothing
    ends the watch with the [ValueError] of [time.sleep], after its two
    fetches. *)
Theorem wait_until_mr_finished_negative_interval fuel w :
  check_interval < 0 ->
  timeout_due timeout 0 = false ->
  quiet_cycle C (project self) mr_number (mr_gets w) ->
  (0 < fuel)%nat ->
  let r := wait_until_mr_finished C self fuel mr_number check_interval
             timeout w in
  fst r = Raise (mkExn ValueError "sleep length must be non-negative") /\
  sleeps (snd r) = sleeps w /\
  mr_gets (snd r) = S (S (mr_gets w)).
Proof.
  intros Hneg Hdue (mr & mr' & iid & st & Hget & Hiid & Hst & Hopen & Hget'
                    & Hquiet) Hfuel.
  cbv zeta. rewrite wait_until_mr_finished_unfold.
  destruct fuel as [|fuel]; [lia|].
  match goal with
  | |- context [wait_loop _ _ _ _ _ _ ?st0 ?w0] =>
      destruct (wait_loop_cycle C self mr_number check_interval timeout st0 w0
                  mr mr' iid st) as (w1 & _ & Hgets & Hsleeps & Hloop)
  end; try assumption.
  { cbn [now]. now rewrite Z.sub_diag. }
  rewrite Hloop, Hquiet, Hopen. unfold bind, time_sleep.
  apply Z.ltb_lt in Hneg. rewrite Hneg. cbn [fst snd]. auto.
Qed.

(** Had the server sent members of [GitLabStatus]: a watch that polls on
    through [k] cycles and then sees [CLOSE], [MERGE] or [LOCKE], with no
    conflict, returns on that cycle, having slept [k] times. *)
Theorem wait_until_mr_finished_returns_on_member (k fuel : nat) w
    (mr mr' : MR) iid s :
  polls_on C (project self) mr_number check_interval timeout w k ->
  timeout_due timeout
    (clock_after C (mr_gets w) (now w) check_interval k - now w) = false ->
  mr_reply C (project self) mr_number (mr_gets w + 2 * k) = Returns mr ->
  mr !! "iid" = Some iid ->
  mr !! "state" = Some (PEnum s) ->
  s <> OPEN ->
  mr_reply C (project self) mr_number (S (mr_gets w + 2 * k)) = Returns mr' ->
  conflicted mr' = false ->
  (k < fuel)%nat ->
  let r := wait_until_mr_finished C self fuel mr_number check_interval
             timeout w in
  fst r = Ok tt /\
  sleeps (snd r) = (repeat check_interval k ++ sleeps w)%list /\
  mr_gets (snd r) = (mr_gets w + 2 * k + 2)%nat.
Proof.
  intros Hpolls Hdue Hget Hiid Hst Hs Hget' Hquiet Hfuel. cbv zeta.
  destruct (wait_until_polls_on k w Hpolls)
    as (w' & Hnow & Hgets & Hsleeps & Hloop).
  replace fuel with (k + S (fuel - S k))%nat by lia.
  rewrite Hloop. rewrite <- Hnow in Hdue. rewrite <- Hgets in Hget, Hget'.
  destruct (wait_loop_cycle C self mr_number check_interval timeout (now w) w'
              mr mr' iid (PEnum s) Hdue Hget Hiid Hst Hget')
    as (w1 & _ & Hgets1 & Hsleeps1 & Hcycle).
  rewrite Hcycle, Hquiet.
  replace (py_in (PEnum s) close_statuses) with true by now destruct s.
  cbn [ret fst snd]. split; [reflexivity|].
  rewrite Hsleeps1, Hsleeps, Hgets1, Hgets. split; [reflexivity | lia].
Qed.

End WatcherEdges.

(** A negative timeout ends the watch with [TimeoutError] at once: the
    server is not asked anything. *)
Theorem wait_until_mr_finished_negative_timeout C self mr_number
    check_interval (T : Z) fuel w :
  T < 0 ->
  (0 < fuel)%nat ->
  let r := wait_until_mr_finished C self fuel mr_number check_interval
             (Some T) w in
  fst r = Raise (mkExn TimeoutError
                   ("⏰ Timeout reached while waiting for MR !"
                    ++ py_str mr_number ++ " to be merged.")) /\
  mr_gets (snd r) = mr_gets w /\
  sleeps (snd r) = sleeps w.
Proof.
  intros HT Hfuel. cbv zeta. rewrite wait_until_mr_finished_unfold.
  destruct fuel as [|fuel]; [lia|].
  rewrite wait_loop_late; [auto|].
  cbn [now timeout_due truthy]. rewrite Z.sub_diag.
  destruct (Z.eqb_spec T 0) as [?|_]; [lia|]. cbn [negb andb].
  rewrite Z.gtb_ltb. apply Z.ltb_lt. lia.
Qed.

(** The loop reads the state from its own fetch and leaves the conflict
    check to the second fetch of the cycle.  If every merge request the
    loop itself fetches shows a conflict while the one fetched by
    [has_merge_conflicts] right after shows none, the watch raises
    nothing and polls on. *)
Theorem wait_until_mr_finished_unseen_conflict C self mr_number
    check_interval fuel w (a b : MR) iid st :
  (forall j, mr_reply C (project self) mr_number (mr_gets w + 2 * j)
             = Returns a) ->
  (forall j, mr_reply C (project self) mr_number (S (mr_gets w + 2 * j))
             = Returns b) ->
  a !! "iid" = Some iid ->
  a !! "state" = Some st ->
  py_in st close_statuses = false ->
  conflicted a = true ->
  conflicted b = false ->
  0 <= check_interval ->
  let r := wait_until_mr_finished C self fuel mr_number check_interval
             None w in
  fst r = OutOfFuel /\
  sleeps (snd r) = (repeat check_interval fuel ++ sleeps w)%list.
Proof.
  intros Ha Hb Hiid Hst Hopen _ Hquiet Hci. cbv zeta.
  destruct (wait_until_polls_on C self mr_number check_interval None fuel w)
    as (w' & _ & _ & Hsleeps & Hloop).
  { split; [auto|]. intros j _. split; [|reflexivity].
    exists a, b, iid, st. auto 10. }
  specialize (Hloop O). rewrite Nat.add_0_r in Hloop. rewrite Hloop.
  auto.
Qed.

(** ** The verbs that write, and the file reader *)

Section WriterOutcomes.

Variables (F : Forge) (self : GitLabClient).

(** [create_new_branch] sends one request to the client's project,
    carrying [branch_name] as [branch] and [from_branch] as [ref]; its
    outcome is the server's answer, and it logs the creation only when
    the server has answered. *)
Theorem create_new_branch_outcome branch_name from_branch s :
  let r := create_new_branch F self branch_name from_branch s in
  exists data : MR,
    data !! "branch" = Some (PStr branch_name) /\
    data !! "ref" = Some (PStr from_branch) /\
    requests (snd r) = BranchCreate (project self) data :: requests s /\
    fst r = of_reply (create_reply F (requests s)
                        (BranchCreate (project self) data)) /\
    log (world (snd r))
    = match create_reply F (requests s) (BranchCreate (project self) data) with
      | Returns _ =>
          (INFO, "✅ Branch '" ++ branch_name ++ "' created from '"
                 ++ from_branch ++ "'") :: log (world s)
      | Throws _ => log (world s)
      end.
Proof.
  cbv zeta.
  exists (<["branch" := PStr branch_name]> (<["ref" := PStr from_branch]> ∅)).
  split; [now simplify_map_eq|]. split; [now simplify_map_eq|].
  unfold create_new_branch, bind2, server_create, lift. cbn.
  destruct (create_reply F (requests s) _); cbn; auto.
Qed.

(** [create_tag] sends one request carrying [tag_name], [from_branch] as
    [ref] and the message; without a message the request still has the
    key [message], with [None] for value.  Its outcome is the server's
    answer, and it logs the creation only when the server has answered. *)
Theorem create_tag_outcome tag_name from_branch message s :
  let r := create_tag F self tag_name from_branch message s in
  exists data : MR,
    data !! "tag_name" = Some (PStr tag_name) /\
    data !! "ref" = Some (PStr from_branch) /\
    data !! "message" = Some (of_opt_str message) /\
    requests (snd r) = TagCreate (project self) data :: requests s /\
    fst r = of_reply (create_reply F (requests s)
                        (TagCreate (project self) data)) /\
    log (world (snd r))
    = match create_reply F (requests s) (TagCreate (project self) data) with
      | Returns _ =>
          (INFO, "✅ Tag '" ++ tag_name ++ "' created from '"
                 ++ from_branch ++ "'") :: log (world s)
      | Throws _ => log (world s)
      end.
Proof.
  cbv zeta.
  exists (<["tag_name" := PStr tag_name]>
            (<["ref" := PStr from_branch]>
               (<["message" := of_opt_str message]> ∅))).
  split; [now simplify_map_eq|]. split; [now simplify_map_eq|].
  split; [now simplify_map_eq|].
  unfold create_tag, bind2, server_create, lift. cbn.
  destruct (create_reply F (requests s) _); cbn; auto.
Qed.

(** [create_new_mr] sends one request carrying [from_branch] as
    [source_branch], [target] as [target_branch] and the title.  A refusal
    of the server comes out as it is.  When the server has created the
    merge request, the log record reads its [iid]: if the answer has none,
    the call raises [AttributeError] although the request has been
    served. *)
Theorem create_new_mr_outcome title from_branch target s :
  let r := create_new_mr F self title from_branch target s in
  exists data : MR,
    data !! "source_branch" = Some (PStr from_branch) /\
    data !! "target_branch" = Some (PStr target) /\
    data !! "title" = Some (PStr title) /\
    requests (snd r) = MergeRequestCreate (project self) data :: requests s /\
    match create_reply F (requests s)
            (MergeRequestCreate (project self) data) with
    | Throws e => fst r = Raise e /\ log (world (snd r)) = log (world s)
    | Returns mr =>
        match mr !! "iid" with
        | Some iid =>
            fst r = Ok mr /\
            log (world (snd r))
            = (INFO, "✅ Merge Request '" ++ title ++ "' created: !"
                     ++ py_str iid) :: log (world s)
        | None =>
            fst r = Raise (mkExn AttributeError "iid") /\
            log (world (snd r)) = log (world s)
        end
    end.
Proof.
  cbv zeta.
  exists (<["source_branch" := PStr from_branch]>
            (<["target_branch" := PStr target]>
               (<["title" := PStr title]> ∅))).
  split; [now simplify_map_eq|]. split; [now simplify_map_eq|].
  split; [now simplify_map_eq|].
  unfold create_new_mr, bind2, server_create, lift, getattr. cbn.
  destruct (create_reply F (requests s) _) as [mr|e]; cbn; [|auto].
  destruct (mr !! "iid"); cbn; auto.
Qed.

(** [fetch_file_content] looks the project up by [project_path] on every
    call, whatever project the client was built for.  If the lookup
    fails, the exception comes out and no file is asked for; otherwise
    the file is asked of the project the lookup returned, at [branch], and
    the outcome is the server's answer. *)
Theorem fetch_file_content_outcome project_path branch file_path s :
  let r := fetch_file_content F self project_path branch file_path s in
  project_gets (world (snd r)) = S (project_gets (world s)) /\
  match project_reply (core F) project_path (project_gets (world s)) with
  | Throws e => fst r = Raise e /\ requests (snd r) = requests s
  | Returns proj =>
      fst r = of_reply (file_reply F (requests s)
                          (FileGet proj file_path branch)) /\
      requests (snd r) = FileGet proj file_path branch :: requests s
  end.
Proof.
  cbv zeta.
  unfold fetch_file_content, bind2, server_file, lift, projects_get, logger.
  cbn.
  destruct (project_reply (core F) project_path (project_gets (world s)));
    cbn; [|auto].
  destruct (file_reply F (requests s) _); cbn; auto.
Qed.

End WriterOutcomes.

(** ** More scenarios, run *)

(** No token anywhere: the server is asked all the same, and the client
    is built with no token. *)
Lemma init_success_witness :
  let C := accepting ∅ in
  let r := init C "https://gitlab.example" None "group/repo" fresh in
  auth_reply C "https://gitlab.example"
    (py_or None (environ C !! "GITLAB_ACCESS_TOKEN")) (auth_calls fresh)
  = Returns tt /\
  project_reply C "group/repo" (project_gets fresh) = Returns "group/repo" /\
  fst r = Ok (mkClient "https://gitlab.example" None
                (mkGitlab "https://gitlab.example" None) "group/repo") /\
  auth_calls (snd r) = 1%nat /\
  project_gets (snd r) = 1%nat.
Proof.
  cbv zeta. split; [reflexivity|]. split; [reflexivity|].
  destruct (init_success (accepting ∅) "https://gitlab.example" None
              "group/repo" fresh "group/repo" eq_refl eq_refl)
    as (Hres & Hauth & Hproj & _).
  split; [exact Hres|]. split; [exact Hauth | exact Hproj].
Defined.

(** The project is unknown: the server's 404 comes out, not a
    [ValueError]. *)
Lemma init_project_failure_witness :
  let r := init projectless "https://gitlab.example" (Some "tok") "group/none"
             fresh in
  auth_reply projectless "https://gitlab.example"
    (py_or (Some "tok") (environ projectless !! "GITLAB_ACCESS_TOKEN"))
    (auth_calls fresh) = Returns tt /\
  project_reply projectless "group/none" (project_gets fresh)
  = Throws (mkExn GitlabError "404 Project Not Found") /\
  fst r = Raise (mkExn GitlabError "404 Project Not Found").
Proof.
  cbv zeta. split; [reflexivity|]. split; [reflexivity|].
  apply (init_project_failure projectless "https://gitlab.example"
           (Some "tok") "group/none" fresh
           (mkExn GitlabError "404 Project Not Found") eq_refl eq_refl).
Defined.

(** An interrupt during the check is not an authentication failure. *)
Lemma is_connected_without_raising_witness :
  fst (is_connected interrupted "https://gitlab.example"
         (mkGitlab "https://gitlab.example" None) false fresh)
  = Raise (mkExn KeyboardInterrupt "") /\
  fst (is_connected (refusing ∅) "https://gitlab.example"
         (mkGitlab "https://gitlab.example" None) false fresh)
  = Ok false.
Proof.
  split.
  - apply (is_connected_without_raising interrupted "https://gitlab.example"
             (mkGitlab "https://gitlab.example" None) fresh).
  - apply (is_connected_without_raising (refusing ∅) "https://gitlab.example"
             (mkGitlab "https://gitlab.example" None) fresh).
Defined.

(** A merge request with no field at all: no conflict, no exception, no
    log record. *)
Lemma has_merge_conflicts_total_witness :
  let r := has_merge_conflicts (serving ∅) a_client (PInt 7) fresh in
  mr_reply (serving ∅) (project a_client) (PInt 7) (mr_gets fresh)
  = Returns ∅ /\
  fst r = Ok false /\ log (snd r) = [].
Proof.
  cbv zeta. split; [reflexivity|].
  destruct (has_merge_conflicts_total (serving ∅) a_client (PInt 7) fresh ∅
              eq_refl) as (Hres & Hlog & _).
  split; [exact Hres | apply Hlog; reflexivity].
Defined.

(** [has_conflicts] is [1]: a conflict. *)
Lemma has_merge_conflicts_truthiness_witness :
  mr_reply (serving flagged_one) (project a_client) (PInt 7) (mr_gets fresh)
  = Returns flagged_one /\
  flagged_one !! "has_conflicts" = Some (PInt 1) /\
  truthy (PInt 1) = true /\
  fst (has_merge_conflicts (serving flagged_one) a_client (PInt 7) fresh)
  = Ok true.
Proof.
  split; [reflexivity|]. split; [reflexivity|]. split; [reflexivity|].
  apply (has_merge_conflicts_truthiness (serving flagged_one) a_client
           (PInt 7) fresh flagged_one (PInt 1) eq_refl eq_refl).
  reflexivity.
Defined.

(** The server fails the first fetch. *)
Lemma readers_propagate_witness :
  let C := serving_first 0 opened in
  mr_reply C (project a_client) (PInt 7) (mr_gets fresh)
  = Throws (mkExn GitlabError "404 Not Found") /\
  fst (get_mr_status C a_client (PInt 7) fresh)
  = Raise (mkExn GitlabError "404 Not Found") /\
  fst (is_mr_merged C a_client (PInt 7) fresh)
  = Raise (mkExn GitlabError "404 Not Found").
Proof.
  cbv zeta. split; [reflexivity|].
  destruct (readers_propagate (serving_first 0 opened) a_client (PInt 7) fresh
              (mkExn GitlabError "404 Not Found") eq_refl)
    as (Hstatus & _ & Hmerged & _).
  split; [exact Hstatus | exact Hmerged].
Defined.

Lemma readers_missing_state_witness :
  mr_reply (serving no_state) (project a_client) (PInt 7) (mr_gets fresh)
  = Returns no_state /\
  no_state !! "state" = None /\
  fst (is_mr_open (serving no_state) a_client (PInt 7) fresh)
  = Raise (mkExn AttributeError "state").
Proof.
  split; [reflexivity|]. split; [reflexivity|].
  destruct (readers_missing_state (serving no_state) a_client (PInt 7) fresh
              no_state eq_refl eq_refl) as (_ & _ & Hopen & _).
  exact Hopen.
Defined.

Lemma is_mr_merged_open_exclusive_witness :
  mr_reply (serving closed_member) (project a_client) (PInt 7) (mr_gets fresh)
  = Returns closed_member /\
  ~ (fst (is_mr_merged (serving closed_member) a_client (PInt 7) fresh)
     = Ok true /\
     fst (is_mr_open (serving closed_member) a_client (PInt 7) fresh)
     = Ok true).
Proof.
  split; [reflexivity|].
  apply (is_mr_merged_open_exclusive (serving closed_member) a_client (PInt 7)
           fresh fresh closed_member eq_refl eq_refl).
Defined.

(** A watch that returns: the server showed the member [CLOSE]. *)
Lemma wait_until_mr_finished_return_sound_witness :
  fst (wait_until_mr_finished (serving closed_member) a_client 1 (PInt 7) 10
         None fresh) = Ok tt /\
  exists g (mr : MR) s,
    (mr_gets fresh <= g)%nat /\
    mr_reply (serving closed_member) (project a_client) (PInt 7) g
    = Returns mr /\
    mr !! "state" = Some (PEnum s) /\ s <> OPEN.
Proof.
  split; [reflexivity|].
  apply (wait_until_mr_finished_return_sound (serving closed_member) a_client
           (PInt 7) 10 None 1 fresh).
  reflexivity.
Defined.

(** The server answers two fetches and fails the third: one cycle, one
    sleep, and the 404 on the second cycle. *)
Lemma wait_until_mr_finished_fetch_failure_witness :
  let C := serving_first 2 opened in
  let r := wait_until_mr_finished C a_client 5 (PInt 7) 10 None fresh in
  polls_on C (project a_client) (PInt 7) 10 None fresh 1 /\
  mr_reply C (project a_client) (PInt 7) (mr_gets fresh + 2 * 1)
  = Throws (mkExn GitlabError "404 Not Found") /\
  fst r = Raise (mkExn GitlabError "404 Not Found") /\
  sleeps (snd r) = [10].
Proof.
  cbv zeta.
  assert (Hpolls : polls_on (serving_first 2 opened) (project a_client)
                     (PInt 7) 10 None fresh 1).
  { split; [lia|]. intros j Hj. destruct j as [|j]; [|lia].
    split; [|reflexivity].
    exists opened, opened, (PInt 7), (PStr "opened").
    repeat split; reflexivity. }
  split; [exact Hpolls|]. split; [reflexivity|].
  apply (wait_until_mr_finished_fetch_failure (serving_first 2 opened)
           a_client (PInt 7) 10 None 1 5 fresh
           (mkExn GitlabError "404 Not Found") Hpolls eq_refl);
    [left; reflexivity | lia].
Defined.

(** The merge request comes without [iid]: [AttributeError] after one
    fetch. *)
Lemma wait_until_mr_finished_missing_field_witness :
  let C := serving no_iid in
  let r := wait_until_mr_finished C a_client 3 (PInt 7) 10 None fresh in
  polls_on C (project a_client) (PInt 7) 10 None fresh 0 /\
  mr_reply C (project a_client) (PInt 7) (mr_gets fresh + 2 * 0)
  = Returns no_iid /\
  no_iid !! "iid" = None /\
  fst r = Raise (mkExn AttributeError "iid") /\
  mr_gets (snd r) = 1%nat.
Proof.
  cbv zeta.
  assert (Hpolls : polls_on (serving no_iid) (project a_client) (PInt 7) 10
                     None fresh 0).
  { split; intros; lia. }
  split; [exact Hpolls|]. split; [reflexivity|]. split; [reflexivity|].
  destruct (wait_until_mr_finished_missing_field (serving no_iid) a_client
              (PInt 7) 10 None 0 3 fresh no_iid Hpolls eq_refl eq_refl)
    as (Hiid & _ & Hcount); [lia|].
  split; [apply Hiid; reflexivity|].
  apply Hcount. left. reflexivity.
Defined.

(** An interval of [-1]: two fetches, then the [ValueError]. *)
Lemma wait_until_mr_finished_negative_interval_witness :
  let r := wait_until_mr_finished (serving opened) a_client 3 (PInt 7) (-1)
             None fresh in
  -1 < 0 /\
  quiet_cycle (serving opened) (project a_client) (PInt 7) (mr_gets fresh) /\
  fst r = Raise (mkExn ValueError "sleep length must be non-negative") /\
  sleeps (snd r) = [] /\
  mr_gets (snd r) = 2%nat.
Proof.
  cbv zeta.
  assert (Hquiet : quiet_cycle (serving opened) (project a_client) (PInt 7)
                     (mr_gets fresh)).
  { exists opened, opened, (PInt 7), (PStr "opened"). repeat split; reflexivity. }
  split; [lia|]. split; [exact Hquiet|].
  apply (wait_until_mr_finished_negative_interval (serving opened) a_client
           (PInt 7) (-1) None 3 fresh); [lia | reflexivity | exact Hquiet | lia].
Defined.

(** Open at the first poll, the member [CLOSE] at the second: the watch
    returns after one sleep. *)
Lemma wait_until_mr_finished_returns_on_member_witness :
  let C := turning 2 opened closed_member in
  let r := wait_until_mr_finished C a_client 5 (PInt 7) 10 (Some 25) fresh in
  polls_on C (project a_client) (PInt 7) 10 (Some 25) fresh 1 /\
  fst r = Ok tt /\
  sleeps (snd r) = [10] /\
  mr_gets (snd r) = 4%nat.
Proof.
  cbv zeta.
  assert (Hpolls : polls_on (turning 2 opened closed_member) (project a_client)
                     (PInt 7) 10 (Some 25) fresh 1).
  { split; [lia|]. intros j Hj. destruct j as [|j]; [|lia].
    split; [|reflexivity].
    exists opened, opened, (PInt 7), (PStr "opened").
    repeat split; reflexivity. }
  split; [exact Hpolls|].
  apply (wait_until_mr_finished_returns_on_member
           (turning 2 opened closed_member) a_client (PInt 7) 10 (Some 25)
           1 5 fresh closed_member closed_member (PInt 7) CLOSE Hpolls);
    (reflexivity || discriminate || lia).
Defined.

Lemma wait_until_mr_finished_negative_timeout_witness :
  let r := wait_until_mr_finished (serving opened) a_client 3 (PInt 7) 10
             (Some (-1)) fresh in
  -1 < 0 /\ (0 < 3)%nat /\
  fst r = Raise (mkExn TimeoutError
                   "⏰ Timeout reached while waiting for MR !7 to be merged.") /\
  mr_gets (snd r) = 0%nat.
Proof.
  cbv zeta. split; [lia|]. split; [lia|].
  destruct (wait_until_mr_finished_negative_timeout (serving opened) a_client
              (PInt 7) 10 (-1) 3 fresh) as (Hres & Hgets & _); [lia | lia |].
  split; [exact Hres | exact Hgets].
Defined.

(** The loop sees the conflict flag at every poll, [has_merge_conflicts]
    sees none: four cycles, four sleeps, nothing raised. *)
Lemma wait_until_mr_finished_unseen_conflict_witness :
  let C := alternating conflicting opened in
  let r := wait_until_mr_finished C a_client 4 (PInt 7) 10 None fresh in
  conflicted conflicting = true /\
  conflicted opened = false /\
  fst r = OutOfFuel /\
  sleeps (snd r) = [10; 10; 10; 10].
Proof.
  cbv zeta. split; [reflexivity|]. split; [reflexivity|].
  apply (wait_until_mr_finished_unseen_conflict
           (alternating conflicting opened) a_client (PInt 7) 10 4 fresh
           conflicting opened (PInt 7) (PStr "opened")); try reflexivity.
  - intros j. cbn [alternating mr_reply mr_gets fresh Nat.add].
    now rewrite Nat.even_mul.
  - intros j. cbn [alternating mr_reply mr_gets fresh Nat.add].
    now rewrite Nat.even_succ, Nat.odd_mul.
  - lia.
Defined.

(** A forge that answers with an object without [iid]: the merge request
    is requested, and the call raises. *)
Lemma create_new_mr_outcome_witness :
  let r := create_new_mr a_terse_forge a_client "Fix" "feature" "main"
             a_site in
  fst r = Raise (mkExn AttributeError "iid") /\
  length (requests (snd r)) = 1%nat.
Proof.
  cbv zeta.
  destruct (create_new_mr_outcome a_terse_forge a_client "Fix" "feature"
              "main" a_site) as (data & _ & _ & _ & Hreq & Hres).
  cbn in Hres. destruct Hres as [Hres _].
  split; [exact Hres|]. now rewrite Hreq.
Defined.

(** The same branch asked for twice: the second request is refused, and
    still counted. *)
Lemma create_new_branch_outcome_witness :
  let s1 := snd (create_new_branch a_forge a_client "topic" "main" a_site) in
  let r := create_new_branch a_forge a_client "topic" "main" s1 in
  fst r = Raise (mkExn GitlabError "400 already exists") /\
  length (requests (snd r)) = 2%nat /\
  length (log (world (snd r))) = 1%nat.
Proof.
  cbv zeta.
  destruct (create_new_branch_outcome a_forge a_client "topic" "main"
              (snd (create_new_branch a_forge a_client "topic" "main" a_site)))
    as (data & Hb & Hr & Hreq & Hres & Hlog).
  rewrite Hreq. split; [|split; [reflexivity|]].
  - reflexivity.
  - reflexivity.
Defined.

(** An unknown project: no file is asked for. *)
Lemma fetch_file_content_outcome_witness :
  let r := fetch_file_content a_projectless_forge a_client "group/none" "main"
             "README.md" a_site in
  fst r = Raise (mkExn GitlabError "404 Project Not Found") /\
  requests (snd r) = [].
Proof.
  cbv zeta.
  apply (fetch_file_content_outcome a_projectless_forge a_client "group/none"
           "main" "README.md" a_site).
Defined.
